(** * python_sandbox_mcp_server: the code execution relay

    A shallow embedding of [python_mcp_server.py] and the properties of its
    single tool, [execute_python_code].

    Conventions of the embedding:
    - a Python [str] is the list of its code points ([list N]); a [bytes]
      object is a list of octets ([list N], every element below 256);
    - values obtained from [json.loads] are terms of [pyval];
    - the dictionary [response] built by the tool is a [gmap string pyval];
    - the interpreter state touched by the tool (working directory, temporary
      directories, clock reads, outgoing requests, log) is an explicit
      [State], threaded by a state-and-exception monad [M];
    - everything outside the process (clock, sandbox endpoint, I/O faults,
      the name chosen by [mkdtemp]) is read from an [Env] record. *)

From Stdlib Require Import NArith ZArith List String Ascii Lia.
From stdpp Require Import base option gmap sets list strings.

Local Open Scope N_scope.

(** ** Strings and bytes *)

Abbreviation pystr := (list N) (only parsing).
Abbreviation pybytes := (list N) (only parsing).

(** A string literal of the source, as code points. *)
Definition py (s : string) : pystr :=
  map N_of_ascii (list_ascii_of_string s).

Definition pystr_eqb (a b : pystr) : bool := bool_decide (a = b).

(** [str.startswith] / [str.endswith] *)
Fixpoint startswith (s p : pystr) : bool :=
  match p, s with
  | [], _ => true
  | _ :: _, [] => false
  | c :: p', d :: s' => (c =? d) && startswith s' p'
  end.

Definition endswith (s p : pystr) : bool :=
  startswith (rev s) (rev p).

(** [Py_UNICODE_ISSPACE]: the code points removed by [str.strip()]. *)
Definition py_isspace (c : N) : bool :=
  ((0x09 <=? c) && (c <=? 0x0D)) || ((0x1C <=? c) && (c <=? 0x20))
  || (c =? 0x85) || (c =? 0xA0) || (c =? 0x1680)
  || ((0x2000 <=? c) && (c <=? 0x200A))
  || (c =? 0x2028) || (c =? 0x2029) || (c =? 0x202F) || (c =? 0x205F)
  || (c =? 0x3000).

Fixpoint lstrip (s : pystr) : pystr :=
  match s with
  | c :: s' => if py_isspace c then lstrip s' else s
  | [] => []
  end.

Definition rstrip (s : pystr) : pystr := rev (lstrip (rev s)).

(** [str.strip()] *)
Definition strip (s : pystr) : pystr := rstrip (lstrip s).

(** Decimal rendering, zero padded to [width] digits (more if needed). *)
Fixpoint digits_fuel (fuel : nat) (n : N) (acc : pystr) : pystr :=
  match fuel with
  | O => acc
  | S f =>
      let acc' := (48 + n mod 10) :: acc in
      if n / 10 =? 0 then acc' else digits_fuel f (n / 10) acc'
  end.

Definition decimal (n : N) : pystr := digits_fuel (S (N.to_nat (N.log2 n))) n [].

Definition zpad (width : nat) (n : N) : pystr :=
  let d := decimal n in
  replicate (width - length d) 48 ++ d.

(** ** textwrap.dedent

    The regular-expression implementation: lines are separated by line feeds
    only, and only spaces and tabs count as indentation. *)

Definition is_blank (c : N) : bool := (c =? 32) || (c =? 9).

Fixpoint split_lines_aux (s cur : pystr) : list pystr :=
  match s with
  | [] => [rev cur]
  | c :: s' =>
      if c =? 10 then rev cur :: split_lines_aux s' []
      else split_lines_aux s' (c :: cur)
  end.

(** [text.split("\n")] *)
Definition split_lines (s : pystr) : list pystr := split_lines_aux s [].

(** ["\n".join(lines)] *)
Fixpoint join_lines (ls : list pystr) : pystr :=
  match ls with
  | [] => []
  | [l] => l
  | l :: ls' => l ++ 10 :: join_lines ls'
  end.

(** [_whitespace_only_re.sub('', text)], one line at a time. *)
Definition blank_out (l : pystr) : pystr :=
  if forallb is_blank l then [] else l.

Fixpoint leading_blanks (l : pystr) : pystr :=
  match l with
  | c :: l' => if is_blank c then c :: leading_blanks l' else []
  | [] => []
  end.

(** [_leading_whitespace_re.findall(text)]: the indentation of every line
    that has a character other than space, tab and line feed. *)
Definition indents (ls : list pystr) : list pystr :=
  omap (fun l => if forallb is_blank l then None else Some (leading_blanks l)) ls.

(** The [else] branch of the margin loop: cut [margin] at the first position
    where it differs from [indent] (and leave it alone if there is none within
    the shorter of the two). *)
Fixpoint cut_at_mismatch (margin indent : pystr) : pystr :=
  match margin, indent with
  | x :: m', y :: i' => if x =? y then x :: cut_at_mismatch m' i' else []
  | _, _ => margin
  end.

Definition margin_step (margin : option pystr) (indent : pystr) : option pystr :=
  match margin with
  | None => Some indent
  | Some m =>
      if startswith indent m then Some m
      else if startswith m indent then Some indent
      else Some (cut_at_mismatch m indent)
  end.

Definition strip_margin (m l : pystr) : pystr :=
  if startswith l m then drop (length m) l else l.

Definition dedent (text : pystr) : pystr :=
  let ls := map blank_out (split_lines text) in
  match foldl margin_step None (indents ls) with
  | Some (c :: m) => join_lines (map (strip_margin (c :: m)) ls)
  | _ => join_lines ls
  end.

(** ** UTF-8 *)

Definition utf8_char (c : N) : option pybytes :=
  if c <? 0x80 then Some [c]
  else if c <? 0x800 then
    Some [N.lor 0xC0 (N.shiftr c 6); N.lor 0x80 (N.land c 0x3F)]
  else if (0xD800 <=? c) && (c <=? 0xDFFF) then None
  else if c <? 0x10000 then
    Some [N.lor 0xE0 (N.shiftr c 12);
          N.lor 0x80 (N.land (N.shiftr c 6) 0x3F);
          N.lor 0x80 (N.land c 0x3F)]
  else if c <? 0x110000 then
    Some [N.lor 0xF0 (N.shiftr c 18);
          N.lor 0x80 (N.land (N.shiftr c 12) 0x3F);
          N.lor 0x80 (N.land (N.shiftr c 6) 0x3F);
          N.lor 0x80 (N.land c 0x3F)]
  else None.

(** [s.encode("utf-8")]; [None] stands for [UnicodeEncodeError] (a lone
    surrogate in [s]). *)
Fixpoint utf8_encode (s : pystr) : option pybytes :=
  match s with
  | [] => Some []
  | c :: s' =>
      match utf8_char c, utf8_encode s' with
      | Some b, Some bs => Some (b ++ bs)
      | _, _ => None
      end
  end.

(** ** Base64 (module [binascii]) *)

Definition table_b2a_base64 : pystr :=
  py "ABCDEFGHIJKLMNOPQRSTUVWXYZabcdefghijklmnopqrstuvwxyz0123456789+/".

Definition b2a (i : N) : N := nth (N.to_nat i) table_b2a_base64 0.

Definition BASE64_PAD : N := 61.

(** [base64.b64encode(bs).decode("utf-8")] *)
Fixpoint b64encode (bs : pybytes) : pystr :=
  match bs with
  | [] => []
  | [a] =>
      [b2a (N.shiftr a 2); b2a (N.shiftl (N.land a 3) 4); BASE64_PAD; BASE64_PAD]
  | [a; b] =>
      [b2a (N.shiftr a 2);
       b2a (N.lor (N.shiftl (N.land a 3) 4) (N.shiftr b 4));
       b2a (N.shiftl (N.land b 0xF) 2); BASE64_PAD]
  | a :: b :: c :: rest =>
      b2a (N.shiftr a 2)
      :: b2a (N.lor (N.shiftl (N.land a 3) 4) (N.shiftr b 4))
      :: b2a (N.lor (N.shiftl (N.land b 0xF) 2) (N.shiftr c 6))
      :: b2a (N.land c 0x3F)
      :: b64encode rest
  end.

(** [table_a2b_base64]: the value of an alphabet character, [None] for every
    other octet. *)
Definition a2b (c : N) : option N :=
  if (65 <=? c) && (c <=? 90) then Some (c - 65)
  else if (97 <=? c) && (c <=? 122) then Some (c - 71)
  else if (48 <=? c) && (c <=? 57) then Some (c + 4)
  else if c =? 43 then Some 62
  else if c =? 47 then Some 63
  else None.

(** Exceptions: the class and the text [str(e)] gives. *)
Inductive exn_class :=
  | OSError | URLError | JSONDecodeError | UnicodeEncodeError
  | UnicodeDecodeError | KeyError | TypeError | AttributeError
  | ValueError | BinasciiError.

Record exn := Exn { exn_cls : exn_class; exn_str : pystr }.

(** The loop of [binascii.a2b_base64] with [strict_mode] off.  [out] is the
    output so far; a pad character counts only once two characters of the
    current quad were read, and the second pad of a quad ends decoding. *)
Fixpoint a2b_base64_loop (s : pybytes) (quad_pos leftchar pads : N)
    (out : pybytes) : exn + pybytes :=
  match s with
  | [] =>
      if quad_pos =? 0 then inr out
      else if quad_pos =? 1 then
        inl (Exn BinasciiError
               (py "Invalid base64-encoded string: number of data characters ("
                ++ decimal (N.of_nat (length out) / 3 * 4 + 1)
                ++ py ") cannot be 1 more than a multiple of 4"))
      else inl (Exn BinasciiError (py "Incorrect padding"))
  | this_ch :: s' =>
      if this_ch =? BASE64_PAD then
        if 2 <=? quad_pos then
          if 4 <=? quad_pos + (pads + 1) then inr out
          else a2b_base64_loop s' quad_pos leftchar (pads + 1) out
        else a2b_base64_loop s' quad_pos leftchar pads out
      else
        match a2b this_ch with
        | None => a2b_base64_loop s' quad_pos leftchar pads out
        | Some v =>
            if quad_pos =? 0 then a2b_base64_loop s' 1 v 0 out
            else if quad_pos =? 1 then
              a2b_base64_loop s' 2 (N.land v 0x0F) 0
                (out ++ [N.lor (N.shiftl leftchar 2) (N.shiftr v 4)])
            else if quad_pos =? 2 then
              a2b_base64_loop s' 3 (N.land v 0x03) 0
                (out ++ [N.lor (N.shiftl leftchar 4) (N.shiftr v 2)])
            else
              a2b_base64_loop s' 0 0 0
                (out ++ [N.lor (N.shiftl leftchar 6) v])
        end
  end.

Definition a2b_base64 (s : pybytes) : exn + pybytes :=
  a2b_base64_loop s 0 0 0 [].

(** [base64.b64decode(s)] for a [str] argument: [s.encode("ascii")], then
    [binascii.a2b_base64]. *)
Definition b64decode_str (s : pystr) : exn + pybytes :=
  if forallb (fun c => c <? 128) s then a2b_base64 s
  else inl (Exn ValueError
              (py "string argument should contain only ASCII characters")).

(** ** MD5 (module [hashlib]) *)

Definition add32 (a b : N) : N := (a + b) mod 2 ^ 32.
Definition not32 (a : N) : N := N.lxor a 0xFFFFFFFF.
Definition rotl32 (x c : N) : N :=
  N.lor (N.shiftl x c mod 2 ^ 32) (N.shiftr x (32 - c)).

Definition md5_K : list N :=
  [ 0xd76aa478; 0xe8c7b756; 0x242070db; 0xc1bdceee;
    0xf57c0faf; 0x4787c62a; 0xa8304613; 0xfd469501;
    0x698098d8; 0x8b44f7af; 0xffff5bb1; 0x895cd7be;
    0x6b901122; 0xfd987193; 0xa679438e; 0x49b40821;
    0xf61e2562; 0xc040b340; 0x265e5a51; 0xe9b6c7aa;
    0xd62f105d; 0x02441453; 0xd8a1e681; 0xe7d3fbc8;
    0x21e1cde6; 0xc33707d6; 0xf4d50d87; 0x455a14ed;
    0xa9e3e905; 0xfcefa3f8; 0x676f02d9; 0x8d2a4c8a;
    0xfffa3942; 0x8771f681; 0x6d9d6122; 0xfde5380c;
    0xa4beea44; 0x4bdecfa9; 0xf6bb4b60; 0xbebfbc70;
    0x289b7ec6; 0xeaa127fa; 0xd4ef3085; 0x04881d05;
    0xd9d4d039; 0xe6db99e5; 0x1fa27cf8; 0xc4ac5665;
    0xf4292244; 0x432aff97; 0xab9423a7; 0xfc93a039;
    0x655b59c3; 0x8f0ccc92; 0xffeff47d; 0x85845dd1;
    0x6fa87e4f; 0xfe2ce6e0; 0xa3014314; 0x4e0811a1;
    0xf7537e82; 0xbd3af235; 0x2ad7d2bb; 0xeb86d391 ].

Definition md5_S : list N :=
  [ 7; 12; 17; 22; 7; 12; 17; 22; 7; 12; 17; 22; 7; 12; 17; 22;
    5; 9; 14; 20; 5; 9; 14; 20; 5; 9; 14; 20; 5; 9; 14; 20;
    4; 11; 16; 23; 4; 11; 16; 23; 4; 11; 16; 23; 4; 11; 16; 23;
    6; 10; 15; 21; 6; 10; 15; 21; 6; 10; 15; 21; 6; 10; 15; 21 ].

Record md5_state := Md5 { md5_a : N; md5_b : N; md5_c : N; md5_d : N }.

Definition md5_init : md5_state :=
  Md5 0x67452301 0xefcdab89 0x98badcfe 0x10325476.

(** One of the 64 operations on a block [m] of sixteen words. *)
Definition md5_op (m : list N) (st : md5_state) (i : N) : md5_state :=
  let '(Md5 a b c d) := st in
  let '(f, g) :=
    if i <? 16 then (N.lor (N.land b c) (N.land (not32 b) d), i)
    else if i <? 32 then
      (N.lor (N.land d b) (N.land (not32 d) c), (5 * i + 1) mod 16)
    else if i <? 48 then (N.lxor b (N.lxor c d), (3 * i + 5) mod 16)
    else (N.lxor c (N.lor b (not32 d)), (7 * i) mod 16) in
  let f' :=
    add32 (add32 (add32 f a) (nth (N.to_nat i) md5_K 0))
      (nth (N.to_nat g) m 0) in
  Md5 d (add32 b (rotl32 f' (nth (N.to_nat i) md5_S 0))) b c.

Definition md5_block (st : md5_state) (m : list N) : md5_state :=
  let '(Md5 a b c d) := foldl (md5_op m) st (map N.of_nat (seq 0 64)) in
  Md5 (add32 (md5_a st) a) (add32 (md5_b st) b)
      (add32 (md5_c st) c) (add32 (md5_d st) d).

(** Little-endian packing and unpacking. *)
Fixpoint le_bytes (n : nat) (x : N) : pybytes :=
  match n with
  | O => []
  | S n' => x mod 256 :: le_bytes n' (x / 256)
  end.

Fixpoint le_words (fuel : nat) (bs : pybytes) : list N :=
  match fuel, bs with
  | S f, b0 :: b1 :: b2 :: b3 :: rest =>
      (b0 + 256 * (b1 + 256 * (b2 + 256 * b3))) :: le_words f rest
  | _, _ => []
  end.

Fixpoint chunks16 (fuel : nat) (ws : list N) : list (list N) :=
  match fuel, ws with
  | S f, _ :: _ => take 16 ws :: chunks16 f (drop 16 ws)
  | _, _ => []
  end.

Definition md5_pad (msg : pybytes) : pybytes :=
  let len := N.of_nat (length msg) in
  let zeros := N.to_nat ((119 - len mod 64) mod 64) in
  msg ++ 0x80 :: replicate zeros 0 ++ le_bytes 8 ((8 * len) mod 2 ^ 64).

Definition md5_digest (msg : pybytes) : pybytes :=
  let padded := md5_pad msg in
  let ws := le_words (length padded) padded in
  let '(Md5 a b c d) := foldl md5_block md5_init (chunks16 (length ws) ws) in
  le_bytes 4 a ++ le_bytes 4 b ++ le_bytes 4 c ++ le_bytes 4 d.

Definition hex_digit (n : N) : N := if n <? 10 then 48 + n else 87 + n.

(** [hashlib.md5(msg).hexdigest()] *)
Definition md5_hexdigest (msg : pybytes) : pystr :=
  flat_map (fun b => [hex_digit (b / 16); hex_digit (b mod 16)]) (md5_digest msg).

(** The text of the [UnicodeEncodeError] of [s.encode()]: CPython reports the
    first run of code points that cannot be encoded, naming the code point
    when the run has length one. *)
Definition unencodable (c : N) : bool :=
  match utf8_char c with None => true | Some _ => false end.

Fixpoint hex_fixed (digits : nat) (n : N) : pystr :=
  match digits with
  | O => []
  | S d => hex_fixed d (n / 16) ++ [hex_digit (n mod 16)]
  end.

Fixpoint unencodable_run (s : pystr) : nat :=
  match s with
  | c :: s' => if unencodable c then S (unencodable_run s') else O
  | [] => O
  end.

Fixpoint first_unencodable (s : pystr) (pos : N) : option (N * N * nat) :=
  match s with
  | [] => None
  | c :: s' =>
      if unencodable c then Some (pos, c, S (unencodable_run s'))
      else first_unencodable s' (pos + 1)
  end.

Definition encode_error_text (s : pystr) : pystr :=
  match first_unencodable s 0 with
  | Some (pos, c, 1%nat) =>
      py "'utf-8' codec can't encode character '\u" ++ hex_fixed 4 c
      ++ py "' in position " ++ decimal pos ++ py ": surrogates not allowed"
  | Some (pos, _, n) =>
      py "'utf-8' codec can't encode characters in position " ++ decimal pos
      ++ py "-" ++ decimal (pos + N.of_nat n - 1)
      ++ py ": surrogates not allowed"
  | None => py "surrogates not allowed"
  end.

(** ** Time and paths *)

Record datetime := Datetime {
  year : N; month : N; day : N; hour : N; minute : N; second : N
}.

(** [t.strftime("%Y%m%d_%H%M%S")] (years of four digits). *)
Definition strftime (t : datetime) : pystr :=
  zpad 4 (year t) ++ zpad 2 (month t) ++ zpad 2 (day t) ++ py "_"
  ++ zpad 2 (hour t) ++ zpad 2 (minute t) ++ zpad 2 (second t).

(** [os.path.join(a, b)] of [posixpath]. *)
Definition path_join (a b : pystr) : pystr :=
  if startswith b (py "/") then b
  else if bool_decide (a = []) || endswith a (py "/") then a ++ b
  else a ++ py "/" ++ b.

(** ** Python values

    What [json.loads] can return.  A [dict] is kept as the list of its items
    in insertion order (keys are distinct there; lookup takes the first).
    Numbers with a fraction or an exponent are left out. *)

#[warnings="-register-all"] Inductive pyval :=
  | PNone
  | PBool (b : bool)
  | PInt (z : Z)
  | PStr (s : pystr)
  | PList (l : list pyval)
  | PDict (d : list (pystr * pyval)).

Definition type_name (v : pyval) : pystr :=
  match v with
  | PNone => py "NoneType"
  | PBool _ => py "bool"
  | PInt _ => py "int"
  | PStr _ => py "str"
  | PList _ => py "list"
  | PDict _ => py "dict"
  end.

(** [v == 0] *)
Definition eq_zero (v : pyval) : bool :=
  match v with
  | PInt z => bool_decide (z = 0%Z)
  | PBool b => negb b
  | _ => false
  end.

(** [bool(v)] *)
Definition truthy (v : pyval) : bool :=
  match v with
  | PNone => false
  | PBool b => b
  | PInt z => negb (bool_decide (z = 0%Z))
  | PStr s => negb (bool_decide (s = []))
  | PList l => match l with [] => false | _ => true end
  | PDict d => match d with [] => false | _ => true end
  end.

Fixpoint assoc (k : pystr) (d : list (pystr * pyval)) : option pyval :=
  match d with
  | [] => None
  | (k', v) :: d' => if bool_decide (k' = k) then Some v else assoc k d'
  end.

Definition no_attribute (v : pyval) (attr : string) : exn :=
  Exn AttributeError
    (py "'" ++ type_name v ++ py "' object has no attribute '" ++ py attr
     ++ py "'").

(** [v.get(k, dflt)] *)
Definition get_method (v : pyval) (k : pystr) (dflt : pyval) : exn + pyval :=
  match v with
  | PDict d => inr (default dflt (assoc k d))
  | _ => inl (no_attribute v "get")
  end.

(** [v.strip()] *)
Definition strip_method (v : pyval) : exn + pystr :=
  match v with
  | PStr s => inr (strip s)
  | _ => inl (no_attribute v "strip")
  end.

(** [v.endswith(suffix)] *)
Definition endswith_method (v : pyval) (suffix : pystr) : exn + bool :=
  match v with
  | PStr s => inr (endswith s suffix)
  | _ => inl (no_attribute v "endswith")
  end.

(** [repr(k)] of a key without quotes or escapes. *)
Definition repr_key (k : pystr) : pystr := py "'" ++ k ++ py "'".

(** [v[k]] for a string key [k] *)
Definition subscript (v : pyval) (k : pystr) : exn + pyval :=
  match v with
  | PDict d =>
      match assoc k d with
      | Some x => inr x
      | None => inl (Exn KeyError (repr_key k))
      end
  | PList _ =>
      inl (Exn TypeError (py "list indices must be integers or slices, not str"))
  | PStr _ =>
      inl (Exn TypeError (py "string indices must be integers, not 'str'"))
  | _ =>
      inl (Exn TypeError
             (py "'" ++ type_name v ++ py "' object is not subscriptable"))
  end.

(** The items [for file in v] runs over. *)
Definition iterate (v : pyval) : exn + list pyval :=
  match v with
  | PList l => inr l
  | PStr s => inr (map (fun c => PStr [c]) s)
  | PDict d => inr (map (fun kv => PStr kv.1) d)
  | _ =>
      inl (Exn TypeError
             (py "'" ++ type_name v ++ py "' object is not iterable"))
  end.

(** [base64.b64decode(v)] *)
Definition b64decode (v : pyval) : exn + pybytes :=
  match v with
  | PStr s => b64decode_str s
  | _ =>
      inl (Exn TypeError
             (py "argument should be a bytes-like object or ASCII string, not '"
              ++ type_name v ++ py "'"))
  end.

(** [response.update({...})]: the items are stored left to right. *)
Definition update (response : gmap string pyval) (items : list (string * pyval))
    : gmap string pyval :=
  foldl (fun m kv => <[kv.1 := kv.2]> m) response items.

(** ** The world around the tool *)

Inductive io_op :=
  | Makedirs (path : pystr)
  | Mkdtemp
  | OpenWrite (path : pystr)
  | OpenRead (path : pystr)
  | Rmtree (path : pystr).

(** What the process does not control.  [clock n] is the value of the [n]-th
    call of [datetime.now()]; [faults op] is the [OSError] an operation of the
    operating system fails with, if it does; [sandbox data] is the outcome of
    lines 84 to 90 for the payload [data]: the exception raised by
    [urlopen], [decode] or [json.loads], or the parsed reply. *)
Record Env := {
  BASE_DIR : pystr;
  clock : nat -> datetime;
  mkdtemp_name : pystr;
  faults : io_op -> option exn;
  sandbox : pyval -> exn + pyval
}.

(** What the process changes.  [files] and [dirs] are the file system outside
    temporary directories; [tmpdirs] maps each live temporary directory to its
    files. *)
Record State := {
  files : gmap pystr pybytes;
  dirs : gset pystr;
  tmpdirs : gmap pystr (gmap pystr pybytes);
  ticks : nat;
  requests : list pyval;
  logged : list pystr
}.

Definition set_files (f : gmap pystr pybytes -> gmap pystr pybytes) (st : State) : State :=
  {| files := f (files st); dirs := dirs st; tmpdirs := tmpdirs st;
     ticks := ticks st; requests := requests st; logged := logged st |}.

Definition set_dirs (f : gset pystr -> gset pystr) (st : State) : State :=
  {| files := files st; dirs := f (dirs st); tmpdirs := tmpdirs st;
     ticks := ticks st; requests := requests st; logged := logged st |}.

Definition set_tmpdirs
    (f : gmap pystr (gmap pystr pybytes) -> gmap pystr (gmap pystr pybytes))
    (st : State) : State :=
  {| files := files st; dirs := dirs st; tmpdirs := f (tmpdirs st);
     ticks := ticks st; requests := requests st; logged := logged st |}.

Definition set_ticks (f : nat -> nat) (st : State) : State :=
  {| files := files st; dirs := dirs st; tmpdirs := tmpdirs st;
     ticks := f (ticks st); requests := requests st; logged := logged st |}.

Definition set_requests (f : list pyval -> list pyval) (st : State) : State :=
  {| files := files st; dirs := dirs st; tmpdirs := tmpdirs st;
     ticks := ticks st; requests := f (requests st); logged := logged st |}.

Definition set_logged (f : list pystr -> list pystr) (st : State) : State :=
  {| files := files st; dirs := dirs st; tmpdirs := tmpdirs st;
     ticks := ticks st; requests := requests st; logged := f (logged st) |}.

(** ** State and exceptions *)

Definition M (A : Type) : Type := State -> (exn + A) * State.

#[global] Instance M_ret : MRet M := fun A x st => (inr x, st).

#[global] Instance M_bind : MBind M := fun A B f m st =>
  match m st with
  | (inr x, st') => f x st'
  | (inl e, st') => (inl e, st')
  end.

Definition raise {A} (e : exn) : M A := fun st => (inl e, st).

Definition lift {A} (r : exn + A) : M A := fun st => (r, st).

Definition modify (f : State -> State) : M unit := fun st => (inr tt, f st).

Definition gets {A} (f : State -> A) : M A := fun st => (inr (f st), st).

(** ** The tool *)

(** The f-string of [get_unique_filename]. *)
Definition format_filename (prefix content_hash timestamp suffix : pystr) : pystr :=
  prefix ++ content_hash ++ py "_" ++ timestamp ++ suffix.

Section Relay.

Context (env : Env).

(** [Config.TEMP_DIR] *)
Definition TEMP_DIR : pystr := path_join (BASE_DIR env) (py "temp").

(** An operating-system call fails when the environment says so. *)
Definition io (op : io_op) : M unit :=
  match faults env op with
  | Some e => raise e
  | None => mret tt
  end.

(** [datetime.now()] *)
Definition now : M datetime := fun st =>
  (inr (clock env (ticks st)), set_ticks S st).

(** [s.encode()] *)
Definition encode_utf8 (s : pystr) : M pybytes :=
  match utf8_encode s with
  | Some bs => mret bs
  | None => raise (Exn UnicodeEncodeError (encode_error_text s))
  end.

(** [os.makedirs(path, exist_ok=True)] *)
Definition makedirs (path : pystr) : M unit :=
  io (Makedirs path);; modify (set_dirs (fun d => {[path]} ∪ d)).

(** Entering [tempfile.TemporaryDirectory()]: a new, empty directory. *)
Definition mkdtemp : M pystr :=
  io Mkdtemp;;
  taken ← gets (fun st => tmpdirs st !! mkdtemp_name env);
  match taken with
  | Some _ => raise (Exn OSError (py "No usable temporary directory name found"))
  | None =>
      modify (set_tmpdirs <[mkdtemp_name env := ∅]>);;
      mret (mkdtemp_name env)
  end.

(** Leaving it: the directory goes with all it holds. *)
Definition rmtree (tmp : pystr) : M unit :=
  io (Rmtree tmp);; modify (set_tmpdirs (delete tmp)).

(** [with tempfile.TemporaryDirectory() as temp_dir: body]: the directory is
    removed however [body] ends, and a failure to remove it replaces the
    outcome of [body]. *)
Definition with_tempdir {A} (body : pystr -> M A) : M A := fun st =>
  match mkdtemp st with
  | (inl e, st1) => (inl e, st1)
  | (inr tmp, st1) =>
      let '(r, st2) := body tmp st1 in
      match rmtree tmp st2 with
      | (inl e, st3) => (inl e, st3)
      | (inr _, st3) => (r, st3)
      end
  end.

Definition put_tmp (tmp path : pystr) (bs : pybytes) : M unit :=
  modify (set_tmpdirs (fun t => <[tmp := <[path := bs]> (default ∅ (t !! tmp))]> t)).

(** [with open(path, "w", encoding="utf-8") as f: f.write(text)] for a path
    in the temporary directory [tmp]; opening creates the file, then the text
    is encoded.  Line feeds are written as they are (POSIX). *)
Definition write_text (tmp path text : pystr) : M unit :=
  io (OpenWrite path);;
  put_tmp tmp path [];;
  bs ← encode_utf8 text;
  put_tmp tmp path bs.

(** [open(path, "rb").read()] in the temporary directory [tmp]. *)
Definition read_bytes (tmp path : pystr) : M pybytes :=
  io (OpenRead path);;
  found ← gets (fun st => tmpdirs st !! tmp ≫= (.!! path));
  match found with
  | Some bs => mret bs
  | None => raise (Exn OSError (py "No such file or directory"))
  end.

(** [open(path, "wb")]: the file exists and is empty from here on. *)
Definition open_wb (path : pystr) : M unit :=
  io (OpenWrite path);; modify (set_files <[path := []]>).

(** [f.write(bs)] and the close at the end of the [with]. *)
Definition write_bytes (path : pystr) (bs : pybytes) : M unit :=
  modify (set_files <[path := bs]>).

(** Lines 84 to 90: the payload goes out and the reply, if any, is parsed. *)
Definition post_json (data : pyval) : M pyval :=
  modify (set_requests (fun l => l ++ [data]));;
  lift (sandbox env data).

(** [get_unique_filename(content, prefix, suffix)] *)
Definition get_unique_filename (content prefix suffix : pystr) : M pystr :=
  bs ← encode_utf8 content;
  let content_hash := take 8 (md5_hexdigest bs) in
  t ← now;
  let timestamp := strftime t in
  mret (format_filename prefix content_hash timestamp suffix).

(** The payload of lines 72 to 82. *)
Definition payload (main_filename content : pystr) : pyval :=
  PDict [ (py "args", PList [PStr main_filename]);
          (py "files",
           PList [PDict [ (py "path", PStr main_filename);
                          (py "content", PStr content) ]]) ].

(** One turn of the loop of lines 120 to 133. *)
Definition process_file (file : pyval) (response : gmap string pyval)
    : M (gmap string pyval) :=
  path ← lift (subscript file (py "path"));
  is_png ← lift (endswith_method path (py ".png"));
  if is_png : bool then
    output_filename ← get_unique_filename [] (py "plot_") (py ".png");
    let output_path := path_join TEMP_DIR output_filename in
    open_wb output_path;;
    content ← lift (subscript file (py "content"));
    bs ← lift (b64decode content);
    write_bytes output_path bs;;
    plot_data ← lift (subscript file (py "content"));
    mret (update response
            [ ("output_type", PStr (py "plot"));
              ("plot_data", plot_data);
              ("plot_path", PStr output_path);
              ("details",
               PStr (py "Code executed successfully and generated a plot")) ])
  else mret response.

Fixpoint process_files (items : list pyval) (response : gmap string pyval)
    : M (gmap string pyval) :=
  match items with
  | [] => mret response
  | file :: rest =>
      response' ← process_file file response;
      process_files rest response'
  end.

(** Lines 92 to 142: from the parsed reply to the value returned. *)
Definition build_response (result : pyval) : M (gmap string pyval) :=
  returncode ← lift (get_method result (py "returncode") (PInt 0));
  raw_stdout ← lift (get_method result (py "stdout") (PStr []));
  stdout ← lift (strip_method raw_stdout);
  files_v ← lift (get_method result (py "files") (PList []));
  let response : gmap string pyval :=
    update ∅
      [ ("status", PStr (py (if eq_zero returncode then "success" else "error")));
        ("returncode", returncode) ] in
  if negb (eq_zero returncode) then
    mret (update response
            [ ("error_type", PStr (py "execution_error"));
              ("error_message", PStr stdout);
              ("details",
               PStr (py "Code execution encountered syntax error or runtime error")) ])
  else
    let response :=
      if truthy (PStr stdout) then
        update response
          [ ("output_type", PStr (py "text"));
            ("stdout", PStr stdout);
            ("details",
             PStr (py "Code executed successfully and produced text output")) ]
      else response in
    response ←
      (if truthy files_v then
         items ← lift (iterate files_v);
         process_files items response
       else mret response);
    let response :=
      if negb (truthy (PStr stdout)) && negb (truthy files_v) then
        update response
          [ ("output_type", PStr (py "none"));
            ("details",
             PStr (py "Code executed successfully but produced no output")) ]
      else response in
    mret response.

(** Lines 63 to 142: the body of the [try]. *)
Definition try_body (python_code : pystr) : M (gmap string pyval) :=
  makedirs TEMP_DIR;;
  with_tempdir (fun temp_dir =>
    main_filename ← get_unique_filename python_code [] (py ".py");
    let main_file_path := path_join temp_dir main_filename in
    write_text temp_dir main_file_path (strip (dedent python_code));;
    raw ← read_bytes temp_dir main_file_path;
    let data := payload main_filename (b64encode raw) in
    result ← post_json data;
    build_response result).

(** Lines 144 to 151: the handler of [except Exception as e]. *)
Definition system_error (e : exn) : gmap string pyval :=
  update ∅
    [ ("status", PStr (py "error"));
      ("error_type", PStr (py "system_error"));
      ("error_message", PStr (exn_str e));
      ("details", PStr (py "System exception occurred during execution")) ].

Definition log_error (e : exn) : State -> State :=
  set_logged (fun l =>
    l ++ [py "Error occurred while executing code: " ++ exn_str e]).

(** [execute_python_code(python_code)]: the value returned and the state the
    call leaves behind. *)
Definition execute_python_code (python_code : pystr) (st : State)
    : gmap string pyval * State :=
  match try_body python_code st with
  | (inr response, st') => (response, st')
  | (inl e, st') => (system_error e, log_error e st')
  end.

End Relay.

(** ** Vocabulary of the properties *)

(** The name [get_unique_filename] gives to content of bytes [bs] when the
    clock reads [t]. *)
Definition unique_filename (bs : pybytes) (prefix suffix : pystr) (t : datetime)
    : pystr :=
  format_filename prefix (take 8 (md5_hexdigest bs)) (strftime t) suffix.

(** Where a plot is written when the clock reads [t]. *)
Definition plot_path (env : Env) (t : datetime) : pystr :=
  path_join (TEMP_DIR env) (unique_filename [] (py "plot_") (py ".png") t).

(** No call of the operating system fails. *)
Definition no_faults (env : Env) : Prop := forall op, faults env op = None.

(** The payload as the specification words it: the generated name, and the
    base64 text of the UTF-8 bytes of the dedented, trimmed source. *)
Definition request_for (env : Env) (python_code : pystr) (st : State)
    : option pyval :=
  bs ← utf8_encode python_code;
  raw ← utf8_encode (strip (dedent python_code));
  Some (payload (unique_filename bs [] (py ".py") (clock env (ticks st)))
          (b64encode raw)).

(** The call reaches the sandbox, which replies [result]. *)
Definition replies (env : Env) (python_code : pystr) (st : State)
    (result : pyval) : Prop :=
  no_faults env /\ tmpdirs st !! mkdtemp_name env = None /\
  exists data, request_for env python_code st = Some data
               /\ sandbox env data = inr result.

(** The fields of a file entry of the reply. *)
Definition entry_path (file : pyval) : option pystr :=
  match file with
  | PDict d => match assoc (py "path") d with Some (PStr p) => Some p | _ => None end
  | _ => None
  end.

Definition entry_content (file : pyval) : option pystr :=
  match file with
  | PDict d => match assoc (py "content") d with Some (PStr c) => Some c | _ => None end
  | _ => None
  end.

Definition is_png (file : pyval) : bool :=
  match entry_path file with
  | Some p => endswith p (py ".png")
  | None => false
  end.

(** The bytes a [".png"] entry decodes to. *)
Definition entry_bytes (file : pyval) : option pybytes :=
  match entry_content file with
  | Some c => match b64decode_str c with inr bs => Some bs | inl _ => None end
  | None => None
  end.

(** An entry the loop gets through: a dictionary with a string under
    ["path"] and, when that ends in [".png"], base64 text under ["content"]. *)
Definition well_formed (file : pyval) : bool :=
  match entry_path file with
  | Some p =>
      if endswith p (py ".png") then bool_decide (is_Some (entry_bytes file))
      else true
  | None => false
  end.

(** The three fields read from a reply that is a dictionary with a string
    (or nothing) under ["stdout"]: the return code, the trimmed output and
    the files. *)
Definition reply_fields (result : pyval) : option (pyval * pystr * pyval) :=
  match result with
  | PDict d =>
      match default (PStr []) (assoc (py "stdout") d) with
      | PStr raw =>
          Some (default (PInt 0) (assoc (py "returncode") d), strip raw,
                default (PList []) (assoc (py "files") d))
      | _ => None
      end
  | _ => None
  end.

(** The number of [".png"] entries of a list. *)
Fixpoint count_png (items : list pyval) : nat :=
  match items with
  | [] => 0
  | file :: rest => ((if is_png file then 1 else 0) + count_png rest)%nat
  end.

(** The items a well-formed list of entries makes the loop write, in order:
    one per [".png"] entry, named after the clock read at that turn. *)
Fixpoint plots_written (env : Env) (items : list pyval) (tick : nat)
    : list (pystr * pybytes) :=
  match items with
  | [] => []
  | file :: rest =>
      if is_png file then
        (plot_path env (clock env tick), default [] (entry_bytes file))
        :: plots_written env rest (S tick)
      else plots_written env rest tick
  end.

(** The working directory after the writes [l], made in order on [m]. *)
Definition store (m : gmap pystr pybytes) (l : list (pystr * pybytes))
    : gmap pystr pybytes :=
  foldl (fun m kv => <[kv.1 := kv.2]> m) m l.

(** The fields a [".png"] entry leaves in the response. *)
Definition plot_fields (content : pyval) (path : pystr) : list (string * pyval) :=
  [ ("output_type", PStr (py "plot"));
    ("plot_data", content);
    ("plot_path", PStr path);
    ("details", PStr (py "Code executed successfully and generated a plot")) ].

(** The response of a run that exited with [rc], not 0, and printed [out]. *)
Definition execution_error (rc : pyval) (out : pystr) : gmap string pyval :=
  update ∅
    [ ("status", PStr (py "error"));
      ("returncode", rc);
      ("error_type", PStr (py "execution_error"));
      ("error_message", PStr out);
      ("details",
       PStr (py "Code execution encountered syntax error or runtime error")) ].

(** The response of a successful run before the files are looked at. *)
Definition success_start (rc : pyval) (out : pystr) : gmap string pyval :=
  update ∅
    ([ ("status", PStr (py "success")); ("returncode", rc) ]
     ++ match out with
        | [] => []
        | _ :: _ =>
            [ ("output_type", PStr (py "text"));
              ("stdout", PStr out);
              ("details",
               PStr (py "Code executed successfully and produced text output")) ]
        end).

(** The last step: the fields added when there was no output at all. *)
Definition success_finish (out : pystr) (items : list pyval)
    (response : gmap string pyval) : gmap string pyval :=
  match out, items with
  | [], [] =>
      update response
        [ ("output_type", PStr (py "none"));
          ("details",
           PStr (py "Code executed successfully but produced no output")) ]
  | _, _ => response
  end.

(** [st'] differs from [st] in the working directory only, and there only at
    names of plots for clock reads made in between. *)
Definition plots_only (env : Env) (st st' : State) : Prop :=
  dirs st' = dirs st /\ tmpdirs st' = tmpdirs st /\
  requests st' = requests st /\ logged st' = logged st /\
  (ticks st <= ticks st')%nat /\
  (forall p, is_Some (files st !! p) -> is_Some (files st' !! p)) /\
  forall p, files st' !! p <> files st !! p ->
    exists k, (ticks st <= k < ticks st')%nat /\ p = plot_path env (clock env k).

(** Inside the [with] block: as [plots_only], except that the temporary
    directory [tmp] may change and requests go out. *)
Definition inner_frame (env : Env) (tmp : pystr) (st st' : State) : Prop :=
  dirs st' = dirs st /\
  delete tmp (tmpdirs st') = delete tmp (tmpdirs st) /\
  (ticks st <= ticks st')%nat /\
  (forall p, is_Some (files st !! p) -> is_Some (files st' !! p)) /\
  forall p, files st' !! p <> files st !! p ->
    exists k, (ticks st <= k < ticks st')%nat /\ p = plot_path env (clock env k).

(** The state after a call, next to the state before it: the working
    directory may have been created; the temporary directory is gone unless
    its removal failed; files are only added or rewritten, and only under
    names of plots for clock reads made during the call. *)
Definition call_frame (env : Env) (st st' : State) : Prop :=
  (dirs st' = dirs st \/ dirs st' = {[TEMP_DIR env]} ∪ dirs st) /\
  (faults env (Rmtree (mkdtemp_name env)) = None -> tmpdirs st' = tmpdirs st) /\
  (ticks st <= ticks st')%nat /\
  (forall p, is_Some (files st !! p) -> is_Some (files st' !! p)) /\
  forall p, files st' !! p <> files st !! p ->
    exists k, (ticks st <= k < ticks st')%nat /\ p = plot_path env (clock env k).

(** Every run of [m] relates the state it starts from to the one it ends in. *)
Definition preserves {A} (R : State -> State -> Prop) (m : M A) : Prop :=
  forall st, R st (m st).2.

(** ** Sample worlds

    Concrete environments, replies and states on which the properties below
    are run. *)

Definition nine_oh_three (s : N) : datetime := Datetime 2024 5 17 9 3 s.

Definition empty_state : State :=
  {| files := ∅; dirs := ∅; tmpdirs := ∅; ticks := 0; requests := [];
     logged := [] |}.

(** A world without faults, with the given clock, whose sandbox gives the
    same outcome to every request. *)
Definition world (clk : nat -> datetime) (outcome : exn + pyval) : Env :=
  {| BASE_DIR := py "/srv/app"; clock := clk;
     mkdtemp_name := py "/tmp/tmpab12cd"; faults := fun _ => None;
     sandbox := fun _ => outcome |}.

Definition frozen_clock : nat -> datetime := fun _ => nine_oh_three 7.

Definition ticking_clock : nat -> datetime :=
  fun n => nine_oh_three (7 + N.of_nat n).

Definition entry (path content : pystr) : pyval :=
  PDict [ (py "path", PStr path); (py "content", PStr content) ].

Definition reply_of (rc : Z) (out : pystr) (fs : list pyval) : pyval :=
  PDict [ (py "returncode", PInt rc); (py "stdout", PStr out);
          (py "files", PList fs) ].

Definition sample_code : pystr := py "  print('hi')".

(** A run that failed with exit code 7 after drawing a plot. *)
Definition failed_reply : pyval :=
  reply_of 7 (py "ZeroDivisionError: division by zero" ++ [10])
    [entry (py "fig.png") (py "QUJD")].

(** The four fields a plot sets. *)
Definition plot_key (k : string) : bool :=
  bool_decide (k = "output_type") || bool_decide (k = "plot_data")
  || bool_decide (k = "plot_path") || bool_decide (k = "details").

(** A successful run that printed nothing and left one file that is not a
    plot. *)
Definition listing_reply : pyval :=
  reply_of 0 [] [entry (py "out.txt") (py "aGk=")].

(** A successful run that printed a line and drew two plots. *)
Definition two_plots_reply : pyval :=
  reply_of 0 (py "done" ++ [10])
    [entry (py "a.png") (py "QUJD"); entry (py "notes.txt") (py "aGk=");
     entry (py "b.png") (py "eHl6")].

(** A successful run whose plot comes with a line feed after the base64
    text, as MIME encoders write it. *)
Definition line_feed_reply : pyval :=
  reply_of 0 [] [entry (py "fig.png") (py "QUJD" ++ [10])].

(** A successful run that printed nothing and drew one plot. *)
Definition plot_reply (content : pystr) : pyval :=
  reply_of 0 [] [entry (py "fig.png") content].

(** A successful run whose second plot is not base64. *)
Definition broken_plot_reply : pyval :=
  reply_of 0 [] [entry (py "a.png") (py "QUJD"); entry (py "b.png") (py "Q")].

(** The line the handler logs. *)
Definition log_line (e : exn) : pystr :=
  py "Error occurred while executing code: " ++ exn_str e.

(** The log is as it was. *)
Definition same_log (st st' : State) : Prop := logged st' = logged st.

(** A world where the directory of the script is not writable. *)
Definition read_only_world : Env :=
  {| BASE_DIR := py "/srv/app"; clock := frozen_clock;
     mkdtemp_name := py "/tmp/tmpab12cd";
     faults := fun op =>
       match op with
       | Makedirs _ =>
           Some (Exn OSError (py "[Errno 13] Permission denied: '/srv/app/temp'"))
       | _ => None
       end;
     sandbox := fun _ => inr (PDict []) |}.

(** A world with a frozen clock whose sandbox draws ["ABC"] for the source
    [print(1)] and ["xyz"] for any other. *)
Definition two_callers_world : Env :=
  {| BASE_DIR := py "/srv/app"; clock := frozen_clock;
     mkdtemp_name := py "/tmp/tmpab12cd"; faults := fun _ => None;
     sandbox := fun data =>
       match data with
       | PDict [_; (_, PList [PDict [_; (_, PStr c)]])] =>
           if bool_decide (c = py "cHJpbnQoMSk=") then inr (plot_reply (py "QUJD"))
           else inr (plot_reply (py "eHl6"))
       | _ => inl (Exn ValueError (py "bad request"))
       end |}.



(** The call reaches the sandbox, which reports success and well-formed
    files; the last of them that is a plot is [file], after the entries
    [before]. *)
Definition draws (env : Env) (python_code : pystr) (st : State)
    (before : list pyval) (file : pyval) : Prop :=
  exists result rc out after,
    replies env python_code st result /\
    reply_fields result = Some (rc, out, PList (before ++ file :: after)) /\
    eq_zero rc = true /\
    Forall (fun f => well_formed f = true) (before ++ file :: after) /\
    is_png file = true /\
    Forall (fun f => is_png f = false) after.

(** A world whose clock stands still and whose sandbox always draws the same
    plot, and the state a first call leaves there. *)
Definition one_plot_world : Env := world frozen_clock (inr (plot_reply (py "QUJD"))).

Definition after_first_call : State :=
  (execute_python_code one_plot_world (py "print(890)") empty_state).2.

(** * Properties *)

#[local] Arguments py : simpl never.
#[local] Arguments strftime : simpl never.
#[local] Arguments md5_hexdigest : simpl never.
#[local] Arguments b64encode : simpl never.
#[local] Arguments b64decode_str : simpl never.
#[local] Arguments strip : simpl never.
#[local] Arguments dedent : simpl never.
#[local] Arguments utf8_encode : simpl never.
#[local] Arguments path_join : simpl never.
#[local] Arguments format_filename : simpl never.
#[local] Arguments endswith : simpl never.
#[local] Arguments TEMP_DIR : simpl never.
#[local] Arguments update : simpl never.
#[local] Arguments payload : simpl never.
#[local] Arguments plot_fields : simpl never.
#[local] Arguments is_png : simpl never.
#[local] Arguments encode_error_text : simpl never.
#[local] Arguments plot_path : simpl never.

(** ** Running the monad *)

Lemma bind_inr {A B} (m : M A) (f : A -> M B) st x st' :
  m st = (inr x, st') -> (m ≫= f) st = f x st'.
Proof. intros H. unfold mbind, M_bind. by rewrite H. Qed.

Lemma bind_inl {A B} (m : M A) (f : A -> M B) st e st' :
  m st = (inl e, st') -> (m ≫= f) st = (inl e, st').
Proof. intros H. unfold mbind, M_bind. by rewrite H. Qed.

Lemma utf8_encode_nil : utf8_encode [] = Some [].
Proof. reflexivity. Qed.

Ltac unfold_ops :=
  unfold makedirs, with_tempdir, mkdtemp, rmtree, get_unique_filename,
    write_text, read_bytes, post_json, put_tmp, open_wb, write_bytes,
    encode_utf8, now, io, modify, gets, lift, raise;
  unfold mbind, M_bind, mret, M_ret.

(** ** Reaching the sandbox *)

Lemma try_body_replies env code st result :
  replies env code st result ->
  exists st1 data,
    try_body env code st =
      (let '(r, st2) := build_response env result st1 in
       (r, set_tmpdirs (delete (mkdtemp_name env)) st2)) /\
    files st1 = files st /\ dirs st1 = {[TEMP_DIR env]} ∪ dirs st /\
    ticks st1 = S (ticks st) /\ logged st1 = logged st /\
    requests st1 = requests st ++ [data] /\
    delete (mkdtemp_name env) (tmpdirs st1) = tmpdirs st /\
    request_for env code st = Some data.
Proof.
  intros (Hf & Hfresh & data & Hreq & Hsb).
  pose proof Hreq as Hreq'. unfold request_for in Hreq.
  destruct (utf8_encode code) as [bs|] eqn:Hbs; [|done].
  destruct (utf8_encode (strip (dedent code))) as [raw|] eqn:Hraw; [|done].
  simpl in Hreq. injection Hreq as <-.
  eexists _, _. unfold try_body. unfold_ops.
  rewrite !Hf. cbn. rewrite Hfresh. cbn. rewrite Hbs. cbn. rewrite !Hf. cbn.
  rewrite Hraw. cbn. rewrite !lookup_insert_eq. cbn.
  rewrite !lookup_insert_eq. cbn.
  fold (unique_filename bs [] (py ".py") (clock env (ticks st))).
  rewrite Hsb.
  split; [reflexivity|]. cbn.
  repeat split; try reflexivity; [|exact Hreq'].
  rewrite !delete_insert_eq. by apply delete_id.
Qed.

(** ** The loop over the files *)

Lemma plots_only_refl env st : plots_only env st st.
Proof. unfold plots_only. repeat split; auto. intros p Hp. by destruct Hp. Qed.

Lemma plots_only_trans env st1 st2 st3 :
  plots_only env st1 st2 -> plots_only env st2 st3 -> plots_only env st1 st3.
Proof.
  intros (Hd1 & Ht1 & Hr1 & Hl1 & Hk1 & Hg1 & Hp1) (Hd2 & Ht2 & Hr2 & Hl2 & Hk2 & Hg2 & Hp2).
  unfold plots_only. repeat split; try congruence; try lia; auto.
  intros p Hp.
  destruct (decide (files st2 !! p = files st1 !! p)) as [Heq|Hne].
  - destruct (Hp2 p) as (k & Hk & ->); [congruence|]. exists k. split; [lia|done].
  - destruct (Hp1 p Hne) as (k & Hk & ->). exists k. split; [lia|done].
Qed.

(** Opening and writing a plot at the current clock read. *)
Lemma plots_only_write env st bs1 bs2 :
  plots_only env st
    (set_files <[plot_path env (clock env (ticks st)) := bs2]>
       (set_files <[plot_path env (clock env (ticks st)) := bs1]> (set_ticks S st))).
Proof.
  unfold plots_only; cbn. repeat split; auto.
  - intros p Hp. destruct (decide (plot_path env (clock env (ticks st)) = p)) as [->|Hne].
    + rewrite lookup_insert_eq. eauto.
    + by rewrite !lookup_insert_ne.
  - intros p Hp. exists (ticks st). split; [lia|].
    destruct (decide (plot_path env (clock env (ticks st)) = p)) as [->|Hne]; [done|].
    by rewrite !lookup_insert_ne in Hp.
Qed.

Lemma plots_only_open env st bs1 :
  plots_only env st
    (set_files <[plot_path env (clock env (ticks st)) := bs1]> (set_ticks S st)).
Proof.
  unfold plots_only; cbn. repeat split; auto.
  - intros p Hp. destruct (decide (plot_path env (clock env (ticks st)) = p)) as [->|Hne].
    + rewrite lookup_insert_eq. eauto.
    + by rewrite !lookup_insert_ne.
  - intros p Hp. exists (ticks st). split; [lia|].
    destruct (decide (plot_path env (clock env (ticks st)) = p)) as [->|Hne]; [done|].
    by rewrite !lookup_insert_ne in Hp.
Qed.

Lemma plots_only_tick env st : plots_only env st (set_ticks S st).
Proof.
  unfold plots_only; cbn. repeat split; auto. intros p Hp. by destruct Hp.
Qed.

(** Whatever the entry and the faults, one turn of the loop touches nothing
    but the plot it may write. *)
Lemma process_file_frame env file r st :
  plots_only env st (process_file env file r st).2.
Proof.
  unfold process_file. unfold_ops.
  destruct (subscript file (py "path")) as [e|path]; cbn; [apply plots_only_refl|].
  destruct (endswith_method path (py ".png")) as [e|[]]; cbn;
    try apply plots_only_refl.
  rewrite utf8_encode_nil. cbn.
  fold (unique_filename [] (py "plot_") (py ".png") (clock env (ticks st))).
  fold (plot_path env (clock env (ticks st))).
  destruct (faults env _) as [e|]; cbn; [apply plots_only_tick|].
  destruct (subscript file (py "content")) as [e|content]; cbn;
    [apply plots_only_open|].
  destruct (b64decode content) as [e|bs]; cbn; [apply plots_only_open|].
  apply plots_only_write.
Qed.

Lemma process_files_frame env items r st :
  plots_only env st (process_files env items r st).2.
Proof.
  revert r st. induction items as [|file rest IH]; intros r st; cbn.
  - apply plots_only_refl.
  - unfold mbind, M_bind.
    pose proof (process_file_frame env file r st) as Hf.
    destruct (process_file env file r st) as [[e|r'] st']; cbn in *; [done|].
    eapply plots_only_trans; [exact Hf|apply IH].
Qed.

Lemma process_files_app env l1 l2 r st :
  process_files env (l1 ++ l2) r st =
  match process_files env l1 r st with
  | (inr r', st') => process_files env l2 r' st'
  | (inl e, st') => (inl e, st')
  end.
Proof.
  revert r st. induction l1 as [|file rest IH]; intros r st; cbn; [done|].
  unfold mbind, M_bind.
  destruct (process_file env file r st) as [[e|r'] st']; [done|apply IH].
Qed.

(** An entry that is not a plot is passed over. *)
Lemma process_file_other env file r st :
  well_formed file = true -> is_png file = false ->
  process_file env file r st = (inr r, st).
Proof.
  unfold well_formed, is_png, entry_path, process_file.
  destruct file as [| | | | |d]; try done. cbn.
  destruct (assoc (py "path") d) as [[| | |p| |]|]; try done.
  intros _ Hp. unfold_ops. cbn. by rewrite Hp.
Qed.

(** A well-formed plot is written under the name of the current clock read
    and recorded in the response. *)
Lemma process_file_png env file r st c bs :
  no_faults env -> is_png file = true ->
  entry_content file = Some c -> b64decode_str c = inr bs ->
  process_file env file r st =
    (inr (update r (plot_fields (PStr c) (plot_path env (clock env (ticks st))))),
     set_files <[plot_path env (clock env (ticks st)) := bs]>
       (set_files <[plot_path env (clock env (ticks st)) := []]> (set_ticks S st))).
Proof.
  intros Hf. unfold is_png, entry_path, entry_content, process_file.
  destruct file as [| | | | |d]; try done. cbn.
  destruct (assoc (py "path") d) as [[| | |p| |]|]; try done.
  destruct (assoc (py "content") d) as [[| | |c'| |]|]; try done.
  intros Hp [= ->] Hbs. unfold_ops. cbn. rewrite Hp. cbn.
  rewrite utf8_encode_nil. cbn. rewrite Hf. cbn. rewrite Hbs. cbn.
  reflexivity.
Qed.

Lemma well_formed_png file :
  well_formed file = true -> is_png file = true ->
  exists c bs, entry_content file = Some c /\ b64decode_str c = inr bs
               /\ entry_bytes file = Some bs.
Proof.
  unfold well_formed, is_png, entry_bytes.
  destruct (entry_path file) as [p|]; [|done].
  intros Hw Hp. rewrite Hp in Hw. apply bool_decide_eq_true in Hw as [bs Hbs].
  unfold entry_bytes in Hbs.
  destruct (entry_content file) as [c|]; [|done].
  destruct (b64decode_str c) as [e|bs'] eqn:Hd; [done|].
  injection Hbs as ->. eauto.
Qed.

(** A list without plots leaves response and state as they are. *)
Lemma process_files_no_png env items r st :
  Forall (fun f => well_formed f = true) items ->
  Forall (fun f => is_png f = false) items ->
  process_files env items r st = (inr r, st).
Proof.
  intros Hw Hn. revert r st. induction items as [|file rest IH]; intros r st; [done|].
  inversion Hw; inversion Hn; subst. cbn. unfold mbind, M_bind.
  rewrite process_file_other by done. by apply IH.
Qed.

(** A well-formed list is gone through to its end; the clock is read once per
    plot. *)
Lemma process_files_wf env items r st :
  no_faults env -> Forall (fun f => well_formed f = true) items ->
  exists r' st', process_files env items r st = (inr r', st')
    /\ ticks st' = (ticks st + count_png items)%nat.
Proof.
  intros Hf Hw. revert r st. induction Hw as [|file rest Hfile Hrest IH]; intros r st.
  - exists r, st. split; [done|]. cbn. lia.
  - cbn. unfold mbind, M_bind.
    destruct (is_png file) eqn:Hp.
    + destruct (well_formed_png file Hfile Hp) as (c & bs & Hc & Hbs & _).
      rewrite (process_file_png env file r st c bs) by done.
      edestruct IH as (r' & st' & -> & Ht). exists r', st'. split; [done|].
      rewrite Ht. cbn. lia.
    + rewrite process_file_other by done.
      edestruct IH as (r' & st' & -> & Ht). exists r', st'. split; [done|].
      rewrite Ht. cbn. lia.
Qed.

(** An entry that is not well formed stops the loop with an exception, the
    same whatever the response and the state; a [".png"] entry has opened its
    file by then, and leaves it empty. *)
Lemma process_file_malformed env file :
  no_faults env -> well_formed file = false ->
  exists e, forall r st,
    process_file env file r st
    = (inl e,
       if is_png file then
         set_files <[plot_path env (clock env (ticks st)) := []]> (set_ticks S st)
       else st).
Proof.
  intros Hf Hw.
  unfold well_formed, is_png, entry_path, entry_bytes, entry_content in *.
  destruct file as [| | | | |d];
    try by (eexists; intros r st; unfold process_file; unfold_ops; cbn; reflexivity).
  destruct (assoc (py "path") d) as [[| | |p| |]|] eqn:Hpath;
    try by (eexists; intros r st; unfold process_file; unfold_ops; cbn;
            rewrite Hpath; cbn; reflexivity).
  destruct (endswith p (py ".png")) eqn:Hp; [|done].
  destruct (assoc (py "content") d) as [[| | |c| |]|] eqn:Hc;
    try by (eexists; intros r st; unfold process_file; unfold_ops; cbn;
            rewrite Hpath; cbn; rewrite Hp; cbn; rewrite utf8_encode_nil; cbn;
            rewrite Hf; cbn; rewrite Hc; cbn; reflexivity).
  destruct (b64decode_str c) as [e|bs] eqn:Hd.
  - exists e. intros r st. unfold process_file. unfold_ops. cbn.
    rewrite Hpath. cbn. rewrite Hp. cbn. rewrite utf8_encode_nil. cbn.
    rewrite Hf. cbn. rewrite Hc. cbn. rewrite Hd. reflexivity.
  - exfalso. apply bool_decide_eq_false in Hw. apply Hw. eauto.
Qed.

(** ** The working directory after the loop *)

Lemma store_app m l1 l2 : store m (l1 ++ l2) = store (store m l1) l2.
Proof. apply foldl_app. Qed.

Lemma store_cons m p bs l : store m ((p, bs) :: l) = store (<[p := bs]> m) l.
Proof. reflexivity. Qed.

Lemma store_other m l p :
  Forall (fun kv => kv.1 <> p) l -> store m l !! p = m !! p.
Proof.
  revert m. induction l as [|[q bs] l IH]; intros m H; [done|].
  inversion H; subst. cbn in *. unfold store in *. cbn. rewrite IH by done.
  by rewrite lookup_insert_ne.
Qed.

Lemma plots_written_app env l1 l2 t :
  plots_written env (l1 ++ l2) t
  = plots_written env l1 t ++ plots_written env l2 (t + count_png l1).
Proof.
  revert t. induction l1 as [|f l1 IH]; intros t; cbn.
  - by rewrite Nat.add_0_r.
  - destruct (is_png f); cbn; rewrite IH, ?Nat.add_succ_r; reflexivity.
Qed.

Lemma plots_written_names env l t p :
  (forall j, (j < count_png l)%nat -> plot_path env (clock env (t + j)) <> p) ->
  Forall (fun kv => kv.1 <> p) (plots_written env l t).
Proof.
  revert t. induction l as [|f l IH]; intros t H; cbn; [constructor|].
  cbn in H. destruct (is_png f).
  - constructor.
    + cbn. specialize (H 0%nat). rewrite Nat.add_0_r in H. apply H. lia.
    + apply IH. intros j Hj. replace (S t + j)%nat with (t + S j)%nat by lia.
      apply H. lia.
  - apply IH. intros j Hj. apply H. lia.
Qed.

(** The loop over a well-formed list makes the writes of [plots_written], in
    order, and nothing else. *)
Lemma process_files_disk env items r st :
  no_faults env -> Forall (fun f => well_formed f = true) items ->
  files (process_files env items r st).2
  = store (files st) (plots_written env items (ticks st)).
Proof.
  intros Hf Hw. revert r st.
  induction Hw as [|file rest Hfile Hrest IH]; intros r st; [done|].
  cbn [process_files plots_written]. unfold mbind, M_bind.
  destruct (is_png file) eqn:Hp.
  - destruct (well_formed_png file Hfile Hp) as (c & bs & Hc & Hbs & Heb).
    rewrite (process_file_png env file r st c bs) by done.
    rewrite IH. cbn. rewrite Heb. cbn. by rewrite insert_insert_eq.
  - rewrite process_file_other by done. apply IH.
Qed.

(** ** From the reply to the response *)

Lemma reply_fields_get result rc out fv :
  reply_fields result = Some (rc, out, fv) ->
  exists raw,
    get_method result (py "returncode") (PInt 0) = inr rc /\
    get_method result (py "stdout") (PStr []) = inr (PStr raw) /\
    strip raw = out /\
    get_method result (py "files") (PList []) = inr fv.
Proof.
  unfold reply_fields. destruct result as [| | | | |d]; try done.
  destruct (default (PStr []) (assoc (py "stdout") d)) as [| | |raw| |] eqn:Hs; try done.
  intros [= <- <- <-]. exists raw. cbn. by rewrite Hs.
Qed.

Lemma build_response_error env result rc out fv st :
  reply_fields result = Some (rc, out, fv) -> eq_zero rc = false ->
  build_response env result st = (inr (execution_error rc out), st).
Proof.
  intros (raw & Hrc & Hso & Hst & Hfv)%reply_fields_get Hz.
  unfold build_response. unfold_ops. rewrite Hrc, Hso, Hfv. cbn.
  rewrite Hz, Hst. reflexivity.
Qed.

Lemma build_response_success env result rc out items st :
  reply_fields result = Some (rc, out, PList items) -> eq_zero rc = true ->
  build_response env result st =
  match process_files env items (success_start rc out) st with
  | (inr r, st') => (inr (success_finish out items r), st')
  | (inl e, st') => (inl e, st')
  end.
Proof.
  intros (raw & Hrc & Hso & Hst & Hfv)%reply_fields_get Hz.
  unfold build_response. unfold_ops. rewrite Hrc, Hso, Hfv. cbn.
  rewrite Hz, Hst. cbn. unfold success_start, success_finish.
  destruct out as [|c out]; destruct items as [|file rest]; cbn; reflexivity.
Qed.

Lemma build_response_frame env result st :
  plots_only env st (build_response env result st).2.
Proof.
  unfold build_response. unfold_ops.
  destruct (get_method result (py "returncode") (PInt 0)) as [e|rc]; cbn;
    [apply plots_only_refl|].
  destruct (get_method result (py "stdout") (PStr [])) as [e|so]; cbn;
    [apply plots_only_refl|].
  destruct (strip_method so) as [e|out]; cbn; [apply plots_only_refl|].
  destruct (get_method result (py "files") (PList [])) as [e|fv]; cbn;
    [apply plots_only_refl|].
  destruct (eq_zero rc); cbn; [|apply plots_only_refl].
  destruct (truthy fv); cbn; [|apply plots_only_refl].
  destruct (iterate fv) as [e|items]; cbn; [apply plots_only_refl|].
  match goal with
  | |- context [process_files env items ?r st] =>
      pose proof (process_files_frame env items r st) as Hfr;
      destruct (process_files env items r st) as [[e|r'] st']
  end; exact Hfr.
Qed.

(** ** What a call leaves behind *)

Section Preserves.

Context (R : State -> State -> Prop).
Hypothesis R_refl : forall st, R st st.
Hypothesis R_trans : forall a b c, R a b -> R b c -> R a c.

Lemma preserves_bind {A B} (m : M A) (f : A -> M B) :
  preserves R m -> (forall x, preserves R (f x)) -> preserves R (m ≫= f).
Proof.
  intros Hm Hf st. unfold mbind, M_bind. specialize (Hm st).
  destruct (m st) as [[e|x] st']; cbn in *; [done|].
  eapply R_trans; [exact Hm|apply Hf].
Qed.

Lemma preserves_ret {A} (x : A) : preserves R (mret x).
Proof. intros st. apply R_refl. Qed.

Lemma preserves_lift {A} (r : exn + A) : preserves R (lift r).
Proof. intros st. apply R_refl. Qed.

Lemma preserves_raise {A} (e : exn) : preserves R (raise e : M A).
Proof. intros st. apply R_refl. Qed.

Lemma preserves_gets {A} (f : State -> A) : preserves R (gets f).
Proof. intros st. apply R_refl. Qed.

Lemma preserves_io env op : preserves R (io env op).
Proof. intros st. unfold io. destruct (faults env op); apply R_refl. Qed.

Lemma preserves_encode s : preserves R (encode_utf8 s).
Proof. intros st. unfold encode_utf8. destruct (utf8_encode s); apply R_refl. Qed.

Lemma preserves_modify (f : State -> State) :
  (forall st, R st (f st)) -> preserves R (modify f).
Proof. intros H st. apply H. Qed.

End Preserves.

Lemma inner_frame_refl env tmp st : inner_frame env tmp st st.
Proof. unfold inner_frame. repeat split; auto. intros p Hp. by destruct Hp. Qed.

Lemma inner_frame_trans env tmp a b c :
  inner_frame env tmp a b -> inner_frame env tmp b c -> inner_frame env tmp a c.
Proof.
  intros (Hd1 & Ht1 & Hk1 & Hg1 & Hp1) (Hd2 & Ht2 & Hk2 & Hg2 & Hp2).
  unfold inner_frame. repeat split; try congruence; try lia; auto.
  intros p Hp.
  destruct (decide (files b !! p = files a !! p)) as [Heq|Hne].
  - destruct (Hp2 p) as (k & Hk & ->); [congruence|]. exists k. split; [lia|done].
  - destruct (Hp1 p Hne) as (k & Hk & ->). exists k. split; [lia|done].
Qed.

Lemma plots_only_inner env tmp st st' :
  plots_only env st st' -> inner_frame env tmp st st'.
Proof.
  intros (Hd & Ht & _ & _ & Hk & Hg & Hp). unfold inner_frame.
  repeat split; auto. by rewrite Ht.
Qed.

Lemma inner_frame_tmp env tmp st f :
  inner_frame env tmp st
    (set_tmpdirs (fun t => <[tmp := f t]> t) st).
Proof.
  unfold inner_frame; cbn. repeat split; auto.
  - by rewrite delete_insert_eq.
  - intros p Hp. by destruct Hp.
Qed.

Lemma inner_frame_requests env tmp st f :
  inner_frame env tmp st (set_requests f st).
Proof.
  unfold inner_frame; cbn. repeat split; auto. intros p Hp. by destruct Hp.
Qed.

Lemma inner_frame_tick env tmp st : inner_frame env tmp st (set_ticks S st).
Proof. apply plots_only_inner, plots_only_tick. Qed.

Lemma with_body_frame env code tmp :
  preserves (inner_frame env tmp)
    (main_filename ← get_unique_filename env code [] (py ".py");
     write_text env tmp (path_join tmp main_filename) (strip (dedent code));;
     raw ← read_bytes env tmp (path_join tmp main_filename);
     result ← post_json env (payload main_filename (b64encode raw));
     build_response env result).
Proof.
  assert (Hnow : preserves (inner_frame env tmp) (now env)).
  { intros st. apply inner_frame_tick. }
  unfold get_unique_filename, write_text, read_bytes, post_json, put_tmp.
  repeat (first
    [ match goal with
      | |- preserves _ (build_response _ _) =>
          intros ?; apply plots_only_inner, build_response_frame
      end
    | apply (preserves_bind _ (inner_frame_trans env tmp)); [|intros]
    | apply (preserves_ret _ (inner_frame_refl env tmp))
    | apply (preserves_lift _ (inner_frame_refl env tmp))
    | apply (preserves_gets _ (inner_frame_refl env tmp))
    | apply (preserves_io _ (inner_frame_refl env tmp))
    | apply (preserves_encode _ (inner_frame_refl env tmp))
    | exact Hnow
    | apply preserves_modify; intros;
      first [apply inner_frame_tmp|apply inner_frame_requests]
    | match goal with
      | |- preserves _ (match ?x with _ => _ end) => destruct x
      end
    | apply (preserves_raise _ (inner_frame_refl env tmp)) ]).
Qed.

Lemma with_tempdir_frame {A} env (body : list N -> M A) st :
  (forall tmp, preserves (inner_frame env tmp) (body tmp)) ->
  let st' := (with_tempdir env body st).2 in
  dirs st' = dirs st /\
  (faults env (Rmtree (mkdtemp_name env)) = None -> tmpdirs st' = tmpdirs st) /\
  (ticks st <= ticks st')%nat /\
  (forall p, is_Some (files st !! p) -> is_Some (files st' !! p)) /\
  forall p, files st' !! p <> files st !! p ->
    exists k, (ticks st <= k < ticks st')%nat /\ p = plot_path env (clock env k).
Proof.
  intros Hbody.
  assert (Hsame : forall s, dirs s = dirs st -> tmpdirs s = tmpdirs st ->
    files s = files st -> ticks s = ticks st ->
    dirs s = dirs st /\
    (faults env (Rmtree (mkdtemp_name env)) = None -> tmpdirs s = tmpdirs st) /\
    (ticks st <= ticks s)%nat /\
    (forall p, is_Some (files st !! p) -> is_Some (files s !! p)) /\
    forall p, files s !! p <> files st !! p ->
      exists k, (ticks st <= k < ticks s)%nat /\ p = plot_path env (clock env k)).
  { intros s Hd Ht Hfi Hti. rewrite Hfi, Hti. repeat split; auto.
    intros p Hp; by destruct Hp. }
  unfold with_tempdir. unfold_ops. cbn.
  destruct (faults env Mkdtemp) as [e|]; cbn; [by apply Hsame|].
  destruct (tmpdirs st !! mkdtemp_name env) as [old|] eqn:Hfresh; cbn;
    [by apply Hsame|].
  specialize (Hbody (mkdtemp_name env) (set_tmpdirs <[mkdtemp_name env:=∅]> st)).
  destruct (body _ _) as [r st2]. cbn in Hbody.
  destruct Hbody as (Hd & Ht & Hk & Hg & Hp).
  cbn in Ht, Hk, Hg, Hp, Hd.
  rewrite delete_insert_eq, (delete_id (tmpdirs st)) in Ht by done.
  destruct (faults env (Rmtree _)) as [e|] eqn:Hrm; cbn.
  - repeat split; auto. done.
  - repeat split; auto.
Qed.

Lemma try_body_frame env code st :
  call_frame env st (try_body env code st).2.
Proof.
  unfold try_body, call_frame.
  pose proof (with_body_frame env code) as Hbody.
  match goal with
  | |- context [with_tempdir env ?b] => set (body := b) in *
  end.
  change (forall tmp, preserves (inner_frame env tmp) (body tmp)) in Hbody.
  clearbody body. unfold makedirs. unfold io, modify, mbind, M_bind.
  destruct (faults env (Makedirs _)) as [e|]; cbn.
  - repeat split; auto. intros p Hp; by destruct Hp.
  - pose proof (with_tempdir_frame env body
      (set_dirs (fun d => {[TEMP_DIR env]} ∪ d) st) Hbody) as H.
    cbn in H. destruct H as (Hd & Ht & Hk & Hg & Hp).
    repeat split; auto.
Qed.

(** The handler only logs. *)
Lemma execute_frame env code st :
  call_frame env st (execute_python_code env code st).2.
Proof.
  unfold execute_python_code.
  pose proof (try_body_frame env code st) as H.
  destruct (try_body env code st) as [[e|r] st']; exact H.
Qed.

(** ** The handler *)

Lemma system_error_fields e :
  system_error e !! "status" = Some (PStr (py "error")) /\
  system_error e !! "error_type" = Some (PStr (py "system_error")) /\
  system_error e !! "error_message" = Some (PStr (exn_str e)) /\
  system_error e !! "returncode" = None /\
  system_error e !! "output_type" = None.
Proof. repeat split; reflexivity. Qed.

(** C1: no exception leaves [execute_python_code].  Whatever the input, the
    state and the environment, the call returns a response: the one the body
    of the [try] returned, or, when the body raised an exception [e] (a failed
    system call, an unreachable endpoint, a reply that is not JSON, content
    that is not base64, ...), the dictionary with status ["error"], error type
    ["system_error"] and [str(e)] as message. *)
Theorem execute_never_raises env code st :
  (exists response st',
      try_body env code st = (inr response, st') /\
      execute_python_code env code st = (response, st')) \/
  (exists e st',
      try_body env code st = (inl e, st') /\
      (execute_python_code env code st).1 = system_error e /\
      (execute_python_code env code st).1 !! "status" = Some (PStr (py "error")) /\
      (execute_python_code env code st).1 !! "error_type"
        = Some (PStr (py "system_error")) /\
      (execute_python_code env code st).1 !! "error_message"
        = Some (PStr (exn_str e))).
Proof.
  unfold execute_python_code.
  destruct (try_body env code st) as [[e|response] st'] eqn:Hrun.
  - right. exists e, st'. cbn. split; [done|]. split; [done|].
    by destruct (system_error_fields e) as (? & ? & ? & _).
  - left. by exists response, st'.
Qed.

(** The failures the specification names, one by one. *)

Lemma makedirs_failure env code st e :
  faults env (Makedirs (TEMP_DIR env)) = Some e ->
  (execute_python_code env code st).1 = system_error e.
Proof.
  intros H. unfold execute_python_code, try_body. unfold_ops. by rewrite H.
Qed.

(** The text of the error, on a lone surrogate and on a run of two. *)
Lemma encode_error_text_examples :
  encode_error_text [0x78; 0xD800]
  = py "'utf-8' codec can't encode character '\ud800' in position 1: surrogates not allowed" /\
  encode_error_text [0x78; 0xD800; 0xD801; 0x79; 0xDC00]
  = py "'utf-8' codec can't encode characters in position 1-2: surrogates not allowed" /\
  (execute_python_code (world frozen_clock (inr (PDict []))) [0x78; 0xD800]
     empty_state).1 !! "error_message"
  = Some (PStr (py "'utf-8' codec can't encode character '\ud800' in position 1: surrogates not allowed")).
Proof. repeat split; vm_compute; reflexivity. Qed.

Lemma surrogate_failure env code st :
  faults env (Makedirs (TEMP_DIR env)) = None -> faults env Mkdtemp = None ->
  faults env (Rmtree (mkdtemp_name env)) = None ->
  tmpdirs st !! mkdtemp_name env = None -> utf8_encode code = None ->
  exists e, exn_cls e = UnicodeEncodeError /\
    (execute_python_code env code st).1 = system_error e.
Proof.
  intros H1 H2 H5 H3 H4. unfold execute_python_code, try_body. unfold_ops.
  rewrite H1. cbn. rewrite H2. cbn. rewrite H3. cbn. rewrite H4. cbn.
  rewrite H5. cbn. by eexists (Exn _ _).
Qed.

Lemma sandbox_failure env code st data e :
  no_faults env -> tmpdirs st !! mkdtemp_name env = None ->
  request_for env code st = Some data -> sandbox env data = inl e ->
  (execute_python_code env code st).1 = system_error e
  /\ files (execute_python_code env code st).2 = files st.
Proof.
  intros Hf Hfresh Hreq Hsb. unfold request_for in Hreq.
  destruct (utf8_encode code) as [bs|] eqn:Hbs; [|done].
  destruct (utf8_encode (strip (dedent code))) as [raw|] eqn:Hraw; [|done].
  simpl in Hreq. injection Hreq as <-.
  unfold execute_python_code, try_body. unfold_ops.
  rewrite !Hf. cbn. rewrite Hfresh. cbn. rewrite Hbs. cbn. rewrite !Hf. cbn.
  rewrite Hraw. cbn. rewrite !lookup_insert_eq. cbn.
  rewrite !lookup_insert_eq. cbn.
  fold (unique_filename bs [] (py ".py") (clock env (ticks st))).
  rewrite Hsb. done.
Qed.

(** ** Normalising the source keeps it encodable *)

Section Characters.

Context (P : N -> Prop).

Lemma Forall_lstrip s : Forall P s -> Forall P (lstrip s).
Proof.
  induction 1 as [|c s Hc Hs IH]; cbn; [constructor|].
  destruct (py_isspace c); [exact IH|by constructor].
Qed.

Lemma Forall_strip s : Forall P s -> Forall P (strip s).
Proof.
  intros H. unfold strip, rstrip.
  by apply List.Forall_rev, Forall_lstrip, List.Forall_rev, Forall_lstrip.
Qed.

Lemma Forall_split_lines_aux s cur :
  Forall P s -> Forall P cur -> Forall (Forall P) (split_lines_aux s cur).
Proof.
  intros Hs. revert cur. induction Hs as [|c s Hc Hs IH]; intros cur Hcur; cbn.
  - constructor; [by apply List.Forall_rev|constructor].
  - destruct (c =? 10).
    + constructor; [by apply List.Forall_rev|]. apply IH. constructor.
    + apply IH. by constructor.
Qed.

Lemma Forall_join_lines ls :
  P 10 -> Forall (Forall P) ls -> Forall P (join_lines ls).
Proof.
  intros Hnl. induction 1 as [|l ls Hl Hls IH]; cbn; [constructor|].
  destruct ls as [|l' ls']; [done|].
  apply Forall_app. split; [done|]. by constructor.
Qed.

Lemma Forall_blank_out l : Forall P l -> Forall P (blank_out l).
Proof. intros H. unfold blank_out. destruct (forallb is_blank l); [constructor|done]. Qed.

Lemma Forall_strip_margin m l : Forall P l -> Forall P (strip_margin m l).
Proof.
  intros H. unfold strip_margin. destruct (startswith l m); [|done].
  by apply Forall_drop.
Qed.

Lemma Forall_dedent text : P 10 -> Forall P text -> Forall P (dedent text).
Proof.
  intros Hnl H. unfold dedent.
  assert (Hls : Forall (Forall P) (map blank_out (split_lines text))).
  { apply Forall_map. eapply Forall_impl.
    - apply Forall_split_lines_aux; [done|constructor].
    - intros l. apply Forall_blank_out. }
  destruct (foldl _ _ _) as [[|c m]|]; try by apply Forall_join_lines.
  apply Forall_join_lines; [done|]. apply Forall_map.
  eapply Forall_impl; [exact Hls|]. intros l. apply Forall_strip_margin.
Qed.

End Characters.

Lemma utf8_encode_Some s :
  is_Some (utf8_encode s) <-> Forall (fun c => is_Some (utf8_char c)) s.
Proof.
  induction s as [|c s IH].
  - split; [constructor|by eauto].
  - unfold utf8_encode; fold utf8_encode. split.
    + intros [bs Hbs]. destruct (utf8_char c) as [b|] eqn:Hc; [|done].
      destruct (utf8_encode s) as [bs'|]; [|done].
      constructor; [by eauto|]. apply IH. eauto.
    + intros H. inversion H as [|? ? [b Hb] Hs]; subst.
      apply IH in Hs as [bs Hbs]. rewrite Hb, Hbs. eauto.
Qed.

(** What can be hashed can be written: the source, once dedented and trimmed,
    is still free of lone surrogates. *)
Lemma normalised_encodable code :
  is_Some (utf8_encode code) -> is_Some (utf8_encode (strip (dedent code))).
Proof.
  rewrite !utf8_encode_Some. intros H.
  apply Forall_strip, Forall_dedent; [|done]. by exists [10].
Qed.

(** ** Runs that exit with an error *)

Lemma replies_world clk result code :
  is_Some (utf8_encode code) ->
  replies (world clk (inr result)) code empty_state result.
Proof.
  intros [bs Hbs]. split; [done|]. split; [done|].
  destruct (normalised_encodable code) as [raw Hraw]; [by eauto|].
  unfold request_for. rewrite Hbs, Hraw. cbn. eauto.
Qed.

(** C2: when the sandbox reports a return code other than 0, whatever it
    printed and whatever files it lists, the response is the execution error:
    status ["error"], error type ["execution_error"], the trimmed output as
    message and the return code; it has no output fields, and the files of
    the working directory are as before the call. *)
Theorem nonzero_returncode_is_execution_error env code st result rc out fv :
  replies env code st result ->
  reply_fields result = Some (rc, out, fv) ->
  eq_zero rc = false ->
  let response := (execute_python_code env code st).1 in
  let st' := (execute_python_code env code st).2 in
  response = execution_error rc out /\
  response !! "status" = Some (PStr (py "error")) /\
  response !! "error_type" = Some (PStr (py "execution_error")) /\
  response !! "error_message" = Some (PStr out) /\
  response !! "returncode" = Some rc /\
  response !! "output_type" = None /\
  response !! "stdout" = None /\
  response !! "plot_data" = None /\
  response !! "plot_path" = None /\
  files st' = files st.
Proof.
  intros Hrep Hfields Hrc.
  destruct (try_body_replies env code st result Hrep)
    as (st1 & data & Hrun & Hfiles & _).
  unfold execute_python_code. rewrite Hrun.
  rewrite (build_response_error env result rc out fv st1 Hfields Hrc). cbn.
  repeat split; try reflexivity. exact Hfiles.
Qed.

Lemma nonzero_returncode_witness :
  replies (world frozen_clock (inr failed_reply)) sample_code empty_state
    failed_reply /\
  (execute_python_code (world frozen_clock (inr failed_reply)) sample_code
     empty_state).1
  = execution_error (PInt 7) (py "ZeroDivisionError: division by zero") /\
  files (execute_python_code (world frozen_clock (inr failed_reply)) sample_code
     empty_state).2 = ∅.
Proof.
  assert (H1 : replies (world frozen_clock (inr failed_reply)) sample_code
                 empty_state failed_reply).
  { apply replies_world. vm_compute. eauto. }
  pose proof (nonzero_returncode_is_execution_error
                (world frozen_clock (inr failed_reply)) sample_code empty_state
                failed_reply (PInt 7)
                (py "ZeroDivisionError: division by zero")
                (PList [entry (py "fig.png") (py "QUJD")])
                H1 eq_refl eq_refl) as H.
  cbv zeta in H. destruct H as (Ha & _ & _ & _ & _ & _ & _ & _ & _ & Hf).
  split; [exact H1|]. split; [exact Ha|exact Hf].
Defined.

(** ** Successful runs *)

Lemma lookup_plot_fields r content path :
  update r (plot_fields content path) !! "output_type" = Some (PStr (py "plot")) /\
  update r (plot_fields content path) !! "plot_data" = Some content /\
  update r (plot_fields content path) !! "plot_path" = Some (PStr path) /\
  forall k, plot_key k = false ->
    update r (plot_fields content path) !! k = r !! k.
Proof.
  unfold update, plot_fields. cbn. repeat split; try by simplify_map_eq.
  intros k Hk. unfold plot_key in Hk.
  repeat (apply orb_false_elim in Hk as [Hk ?]).
  repeat match goal with
  | H : bool_decide _ = false |- _ => apply bool_decide_eq_false in H
  end.
  by rewrite !lookup_insert_ne.
Qed.

Lemma lookup_plot_details r content path :
  update r (plot_fields content path) !! "details"
  = Some (PStr (py "Code executed successfully and generated a plot")).
Proof. unfold update, plot_fields. cbn. by simplify_map_eq. Qed.

(** The loop leaves every other field of the response alone. *)
Lemma process_files_keys env items r st r' st' k :
  process_files env items r st = (inr r', st') ->
  plot_key k = false -> r' !! k = r !! k.
Proof.
  revert r st. induction items as [|file rest IH]; intros r st Hrun Hk.
  - by injection Hrun as <- <-.
  - cbn in Hrun. unfold mbind, M_bind in Hrun.
    destruct (process_file env file r st) as [[e|r1] st1] eqn:Hone; [done|].
    rewrite (IH _ _ Hrun Hk). clear Hrun IH.
    revert Hone. unfold process_file. unfold_ops.
    destruct (subscript file (py "path")) as [e|path]; cbn; [done|].
    destruct (endswith_method path (py ".png")) as [e|[]]; cbn; [done| |].
    + rewrite utf8_encode_nil. cbn.
      destruct (faults env _) as [e|]; cbn; [done|].
      destruct (subscript file (py "content")) as [e|content]; cbn; [done|].
      destruct (b64decode content) as [e|bs]; cbn; [done|].
      intros Heq.
      assert (Hr : inr (update r (plot_fields content (plot_path env (clock env (ticks st))))) = (inr r1 : exn + gmap string pyval)).
      { exact (f_equal fst Heq). }
      injection Hr as Hr'.
      rewrite <- Hr'.
      destruct (lookup_plot_fields r content (plot_path env (clock env (ticks st)))) as (_ & _ & _ & Hother).
      exact (Hother k Hk).
    + intros Heq. apply (f_equal fst) in Heq. cbn in Heq. by injection Heq as <-.
Qed.


(** After a well-formed list whose last plot is [file], the response holds
    the fields of [file] and the plot is on disk under the name of the clock
    read made for it. *)
Lemma last_plot_wins env l1 file l2 r st :
  no_faults env ->
  Forall (fun f => well_formed f = true) (l1 ++ file :: l2) ->
  is_png file = true ->
  Forall (fun f => is_png f = false) l2 ->
  exists r1 c bs,
    let path := plot_path env (clock env (ticks st + count_png l1)) in
    entry_content file = Some c /\ b64decode_str c = inr bs /\
    (forall k, plot_key k = false -> r1 !! k = r !! k) /\
    exists st',
      process_files env (l1 ++ file :: l2) r st
        = (inr (update r1 (plot_fields (PStr c) path)), st') /\
      files st' !! path = Some bs /\
      ticks st' = S (ticks st + count_png l1).
Proof.
  intros Hf Hw Hp Hn.
  apply Forall_app in Hw as [Hw1 Hw2]. apply Forall_cons in Hw2 as [Hwf Hw2].
  destruct (process_files_wf env l1 r st Hf Hw1) as (r1 & st1 & Hrun1 & Ht1).
  destruct (well_formed_png file Hwf Hp) as (c & bs & Hc & Hbs & _).
  exists r1, c, bs. cbn. split; [done|]. split; [done|].
  split; [intros k Hk; by eapply process_files_keys|].
  eexists. rewrite process_files_app, Hrun1. cbn. unfold mbind, M_bind.
  rewrite (process_file_png env file r1 st1 c bs) by done.
  rewrite process_files_no_png by done. rewrite Ht1.
  split; [reflexivity|]. cbn. split; [by rewrite lookup_insert_eq|by rewrite Ht1].
Qed.

(** A list with a plot has a last plot. *)
Lemma last_png_split items :
  Exists (fun f => is_png f = true) items ->
  exists l1 file l2, items = l1 ++ file :: l2 /\ is_png file = true
                     /\ Forall (fun f => is_png f = false) l2.
Proof.
  induction items as [|f rest IH]; intros H; [by inversion H|].
  destruct (decide (Exists (fun f => is_png f = true) rest)) as [Hr|Hr].
  - destruct (IH Hr) as (l1 & file & l2 & -> & Hp & Hn).
    by exists (f :: l1), file, l2.
  - inversion H as [? ? Hp|]; [|done]. subst. exists [], f, rest.
    split; [done|]. split; [done|].
    apply Forall_forall. intros g Hg. destruct (is_png g) eqn:Hpg; [|done].
    exfalso. apply Hr. apply Exists_exists. eauto.
Qed.

(** What a successful, well-formed reply is turned into. *)
Lemma execute_success env code st result rc out items :
  replies env code st result ->
  reply_fields result = Some (rc, out, PList items) ->
  eq_zero rc = true ->
  Forall (fun f => well_formed f = true) items ->
  exists st1 r,
    files st1 = files st /\ ticks st1 = S (ticks st) /\
    process_files env items (success_start rc out) st1 = (inr r, (process_files env items (success_start rc out) st1).2) /\
    (execute_python_code env code st).1 = success_finish out items r /\
    files (execute_python_code env code st).2
      = files (process_files env items (success_start rc out) st1).2.
Proof.
  intros Hrep Hfields Hrc Hw.
  destruct (try_body_replies env code st result Hrep)
    as (st1 & data & Hrun & Hfiles & _ & Hticks & _).
  destruct Hrep as (Hf & _).
  exists st1. unfold execute_python_code. rewrite Hrun.
  rewrite (build_response_success env result rc out items st1 Hfields Hrc).
  destruct (process_files_wf env items (success_start rc out) st1 Hf Hw)
    as (r & st2 & Hloop & _).
  rewrite Hloop. cbn. by exists r.
Qed.

(** The failing case of C3: a run that succeeded, printed nothing and left
    files none of which is a plot gets neither ["output_type"] nor
    ["details"]. *)
Lemma no_text_no_plot env code st result rc items :
  replies env code st result ->
  reply_fields result = Some (rc, [], PList items) ->
  eq_zero rc = true -> items <> [] ->
  Forall (fun f => well_formed f = true) items ->
  Forall (fun f => is_png f = false) items ->
  (execute_python_code env code st).1
  = update ∅ [("status", PStr (py "success")); ("returncode", rc)].
Proof.
  intros Hrep Hfields Hrc Hne Hw Hn.
  destruct (execute_success env code st result rc [] items Hrep Hfields Hrc Hw)
    as (st1 & r & _ & _ & Hloop & -> & _).
  rewrite process_files_no_png in Hloop by done.
  apply (f_equal fst) in Hloop. cbn in Hloop. injection Hloop as <-.
  destruct items; done.
Qed.

(** C3, at the input where the code departs from it: the sandbox reports
    return code 0, empty output and one file, ["out.txt"].  The response is
    exactly [{"status": "success", "returncode": 0}]: it carries no
    ["output_type"] (and no ["details"]), so it has none of the five declared
    shapes. *)
Theorem success_without_output_type :
  let response :=
    (execute_python_code (world frozen_clock (inr listing_reply)) sample_code
       empty_state).1 in
  response = update ∅ [("status", PStr (py "success")); ("returncode", PInt 0)]
  /\ response !! "output_type" = None /\ response !! "details" = None
  /\ response !! "status" = Some (PStr (py "success")).
Proof.
  cbv zeta.
  rewrite (no_text_no_plot (world frozen_clock (inr listing_reply)) sample_code
             empty_state listing_reply (PInt 0)
             [entry (py "out.txt") (py "aGk=")]).
  - repeat split; reflexivity.
  - apply replies_world. vm_compute. eauto.
  - reflexivity.
  - reflexivity.
  - done.
  - repeat constructor.
  - repeat constructor.
Qed.

(** A successful reply whose last plot is [file]: the response has the fields
    of [file] on top of those set before the loop, and the bytes of [file]
    are in the working directory under the name of the clock read made for
    it. *)
Lemma execute_last_plot env code st result rc out l1 file l2 :
  replies env code st result ->
  reply_fields result = Some (rc, out, PList (l1 ++ file :: l2)) ->
  eq_zero rc = true ->
  Forall (fun f => well_formed f = true) (l1 ++ file :: l2) ->
  is_png file = true ->
  Forall (fun f => is_png f = false) l2 ->
  exists c bs,
    entry_content file = Some c /\ b64decode_str c = inr bs /\
    let path := plot_path env (clock env (S (ticks st) + count_png l1)) in
    let response := (execute_python_code env code st).1 in
    response !! "output_type" = Some (PStr (py "plot")) /\
    response !! "plot_data" = Some (PStr c) /\
    response !! "plot_path" = Some (PStr path) /\
    (forall k, plot_key k = false -> response !! k = success_start rc out !! k) /\
    files (execute_python_code env code st).2 !! path = Some bs.
Proof.
  intros Hrep Hfields Hrc Hw Hp Hn.
  destruct (execute_success env code st result rc out _ Hrep Hfields Hrc Hw)
    as (st1 & r & _ & Hticks & Hloop & Hresp & Hfiles).
  destruct Hrep as (Hf & _).
  destruct (last_plot_wins env l1 file l2 (success_start rc out) st1 Hf Hw Hp Hn)
    as (r1 & c & bs & Hc & Hbs & Hkeys & st' & Hrun & Hfile & _).
  cbv zeta in *. rewrite Hticks in *. cbn [Nat.add] in *.
  exists c, bs. split; [done|]. split; [done|].
  rewrite Hresp, Hfiles, Hrun in *. cbn [snd].
  apply (f_equal fst) in Hloop. cbn [fst] in Hloop. injection Hloop as <-.
  assert (Hfin : success_finish out (l1 ++ file :: l2)
                   (update r1 (plot_fields (PStr c)
                      (plot_path env (clock env (S (ticks st + count_png l1))))))
                 = update r1 (plot_fields (PStr c)
                      (plot_path env (clock env (S (ticks st + count_png l1)))))).
  { unfold success_finish. destruct out; [|done]. by destruct l1. }
  rewrite Hfin.
  destruct (lookup_plot_fields r1 (PStr c)
              (plot_path env (clock env (S (ticks st + count_png l1)))))
    as (H1 & H2 & H3 & H4).
  repeat split; try done.
  intros k Hk. by rewrite H4, Hkeys.
Qed.

(** The response of such a call as a whole: the fields of [file] laid over a
    response that agrees with the one set before the loop at every key the
    plot branch does not write. *)
Lemma execute_plot_response env code st result rc out l1 file l2 :
  replies env code st result ->
  reply_fields result = Some (rc, out, PList (l1 ++ file :: l2)) ->
  eq_zero rc = true ->
  Forall (fun f => well_formed f = true) (l1 ++ file :: l2) ->
  is_png file = true ->
  Forall (fun f => is_png f = false) l2 ->
  exists r1 c bs,
    entry_content file = Some c /\ b64decode_str c = inr bs /\
    (forall k, plot_key k = false -> r1 !! k = success_start rc out !! k) /\
    let path := plot_path env (clock env (S (ticks st) + count_png l1)) in
    (execute_python_code env code st).1 = update r1 (plot_fields (PStr c) path) /\
    files (execute_python_code env code st).2 !! path = Some bs.
Proof.
  intros Hrep Hfields Hrc Hw Hp Hn.
  destruct (execute_success env code st result rc out _ Hrep Hfields Hrc Hw)
    as (st1 & r & _ & Hticks & Hloop & Hresp & Hfiles).
  destruct Hrep as (Hf & _).
  destruct (last_plot_wins env l1 file l2 (success_start rc out) st1 Hf Hw Hp Hn)
    as (r1 & c & bs & Hc & Hbs & Hkeys & st' & Hrun & Hfile & _).
  cbv zeta in *. rewrite Hticks in *. cbn [Nat.add] in *.
  exists r1, c, bs. split; [done|]. split; [done|]. split; [done|].
  rewrite Hresp, Hfiles, Hrun in *. cbn [snd]. split; [|done].
  apply (f_equal fst) in Hloop. cbn [fst] in Hloop. injection Hloop as <-.
  unfold success_finish. destruct out; [|done]. by destruct l1.
Qed.

(** C4: the text branch and the plot branch both apply.  When the sandbox
    reports return code 0, output that is not empty once trimmed, and a list
    of well-formed files with at least one whose path ends in [".png"], the
    response is exactly the seven fields below: the output under ["stdout"]
    as the text branch set it, and, from the plot branch, ["output_type"]
    ["plot"] (over the ["text"] set earlier), the details of a plot, under
    ["plot_data"] the base64 text of the last [".png"] entry of the list and
    under ["plot_path"] the name made at the clock read of that entry; and
    the bytes that text decodes to are in the working directory under that
    name. *)
Theorem text_and_plot_both_apply env code st result rc out items :
  replies env code st result ->
  reply_fields result = Some (rc, out, PList items) ->
  eq_zero rc = true ->
  out <> [] ->
  Forall (fun f => well_formed f = true) items ->
  Exists (fun f => is_png f = true) items ->
  let response := (execute_python_code env code st).1 in
  let st' := (execute_python_code env code st).2 in
  exists l1 file l2 c bs,
    items = l1 ++ file :: l2 /\ is_png file = true /\
    Forall (fun f => is_png f = false) l2 /\
    entry_content file = Some c /\ b64decode_str c = inr bs /\
    let path := plot_path env (clock env (S (ticks st) + count_png l1)) in
    response
    = update ∅
        [ ("status", PStr (py "success")); ("returncode", rc);
          ("stdout", PStr out);
          ("output_type", PStr (py "plot"));
          ("plot_data", PStr c);
          ("plot_path", PStr path);
          ("details", PStr (py "Code executed successfully and generated a plot")) ]
    /\ files st' !! path = Some bs.
Proof.
  intros Hrep Hfields Hrc Hout Hw Hex.
  destruct (last_png_split items Hex) as (l1 & file & l2 & -> & Hp & Hn).
  destruct (execute_plot_response env code st result rc out l1 file l2
              Hrep Hfields Hrc Hw Hp Hn)
    as (r1 & c & bs & Hc & Hbs & Hkeys & Hresp & Hfile).
  cbv zeta in *. exists l1, file, l2, c, bs.
  repeat (split; [done|]). split; [|done].
  rewrite Hresp.
  destruct (lookup_plot_fields r1 (PStr c)
              (plot_path env (clock env (S (ticks st) + count_png l1))))
    as (Htype & Hdata & Hpath & Hother).
  apply map_eq. intros k.
  destruct (decide (k = "output_type")) as [->|H1]; [by rewrite Htype|].
  destruct (decide (k = "plot_data")) as [->|H2]; [by rewrite Hdata|].
  destruct (decide (k = "plot_path")) as [->|H3]; [by rewrite Hpath|].
  destruct (decide (k = "details")) as [->|H4];
    [by rewrite lookup_plot_details|].
  assert (Hk : plot_key k = false).
  { unfold plot_key. by rewrite !bool_decide_eq_false_2. }
  rewrite Hother, Hkeys by done.
  destruct out as [|ch out]; [done|]. unfold success_start, update. cbn.
  destruct (decide (k = "status")) as [->|H5]; [by simplify_map_eq|].
  destruct (decide (k = "returncode")) as [->|H6]; [by simplify_map_eq|].
  destruct (decide (k = "stdout")) as [->|H7]; [by simplify_map_eq|].
  by rewrite !lookup_insert_ne.
Qed.

Lemma text_and_plot_witness :
  replies (world frozen_clock (inr two_plots_reply)) sample_code empty_state
    two_plots_reply /\
  (exists l1 file l2 c bs,
     [entry (py "a.png") (py "QUJD"); entry (py "notes.txt") (py "aGk=");
      entry (py "b.png") (py "eHl6")] = l1 ++ file :: l2 /\
     is_png file = true /\ Forall (fun f => is_png f = false) l2 /\
     entry_content file = Some c /\ b64decode_str c = inr bs /\
     (execute_python_code (world frozen_clock (inr two_plots_reply)) sample_code
        empty_state).1 !! "plot_data" = Some (PStr c) /\
     files (execute_python_code (world frozen_clock (inr two_plots_reply))
              sample_code empty_state).2
       !! plot_path (world frozen_clock (inr two_plots_reply))
            (frozen_clock (1 + count_png l1)) = Some bs) /\
  (execute_python_code (world frozen_clock (inr two_plots_reply)) sample_code
     empty_state).1 !! "stdout" = Some (PStr (py "done")) /\
  (execute_python_code (world frozen_clock (inr two_plots_reply)) sample_code
     empty_state).1 !! "output_type" = Some (PStr (py "plot")) /\
  (execute_python_code (world frozen_clock (inr two_plots_reply)) sample_code
     empty_state).1 !! "plot_data" = Some (PStr (py "eHl6")) /\
  (execute_python_code (world frozen_clock (inr two_plots_reply)) sample_code
     empty_state).1 !! "plot_path"
  = Some (PStr (py "/srv/app/temp/plot_d41d8cd9_20240517_090307.png")) /\
  files (execute_python_code (world frozen_clock (inr two_plots_reply)) sample_code
           empty_state).2
    !! py "/srv/app/temp/plot_d41d8cd9_20240517_090307.png" = Some (py "xyz").
Proof.
  assert (H1 : replies (world frozen_clock (inr two_plots_reply)) sample_code
                 empty_state two_plots_reply).
  { apply replies_world. vm_compute. eauto. }
  assert (H2 : py "done" <> []) by (vm_compute; discriminate).
  assert (H3 : Forall (fun f => well_formed f = true)
                 [entry (py "a.png") (py "QUJD"); entry (py "notes.txt") (py "aGk=");
                  entry (py "b.png") (py "eHl6")]) by (repeat constructor).
  assert (H4 : Exists (fun f => is_png f = true)
                 [entry (py "a.png") (py "QUJD"); entry (py "notes.txt") (py "aGk=");
                  entry (py "b.png") (py "eHl6")]) by (by left).
  split; [exact H1|]. split.
  - destruct (text_and_plot_both_apply
                (world frozen_clock (inr two_plots_reply)) sample_code empty_state
                two_plots_reply (PInt 0) (py "done") _
                H1 eq_refl eq_refl H2 H3 H4)
      as (l1 & file & l2 & c & bs & Hsplit & Hp & Hn & Hc & Hbs & Hresp & Hfile).
    exists l1, file, l2, c, bs.
    split; [exact Hsplit|]. split; [exact Hp|]. split; [exact Hn|].
    split; [exact Hc|]. split; [exact Hbs|]. split; [|exact Hfile].
    rewrite Hresp. reflexivity.
  - repeat split; vm_compute; reflexivity.
Defined.

(** ** Base64: decoding what the encoder wrote *)

Lemma forallb_below (f : N -> bool) (n : nat) :
  forallb f (map N.of_nat (seq 0 n)) = true ->
  forall i, i < N.of_nat n -> f i = true.
Proof.
  intros H i Hi. rewrite forallb_forall in H. apply H.
  apply in_map_iff. exists (N.to_nat i). split; [lia|]. apply in_seq. lia.
Qed.

Lemma sextet_char i :
  i < 64 -> a2b (b2a i) = Some i /\ b2a i <> BASE64_PAD /\ b2a i < 128.
Proof.
  intros Hi.
  pose proof (forallb_below
    (fun i => bool_decide (a2b (b2a i) = Some i /\ b2a i <> BASE64_PAD /\ b2a i < 128))
    64 eq_refl i Hi) as H.
  by apply bool_decide_eq_true in H.
Qed.

Lemma shiftr_below a k n : a < 2 ^ (k + n) -> N.shiftr a k < 2 ^ n.
Proof.
  intros H. rewrite N.shiftr_div_pow2. apply N.Div0.div_lt_upper_bound.
  by rewrite <- N.pow_add_r.
Qed.

(** The three bytes of a group, from its four sextets. *)
Lemma first_byte a x :
  a < 256 -> x < 16 ->
  let s2 := N.lor (N.shiftl (N.land a 3) 4) x in
  N.shiftr a 2 < 64 /\ s2 < 64 /\
  N.lor (N.shiftl (N.shiftr a 2) 2) (N.shiftr s2 4) = a /\ N.land s2 0x0F = x.
Proof.
  intros Ha Hx.
  pose proof (forallb_below (fun a => forallb (fun x =>
    let s2 := N.lor (N.shiftl (N.land a 3) 4) x in
    bool_decide (N.shiftr a 2 < 64 /\ s2 < 64 /\
      N.lor (N.shiftl (N.shiftr a 2) 2) (N.shiftr s2 4) = a /\ N.land s2 0x0F = x))
    (map N.of_nat (seq 0 16))) 256 eq_refl a Ha) as H.
  pose proof (forallb_below _ 16 H x Hx) as H'.
  by apply bool_decide_eq_true in H'.
Qed.

Lemma second_byte b z :
  b < 256 -> z < 4 ->
  let s3 := N.lor (N.shiftl (N.land b 0xF) 2) z in
  s3 < 64 /\
  N.lor (N.shiftl (N.shiftr b 4) 4) (N.shiftr s3 2) = b /\ N.land s3 0x03 = z.
Proof.
  intros Hb Hz.
  pose proof (forallb_below (fun b => forallb (fun z =>
    let s3 := N.lor (N.shiftl (N.land b 0xF) 2) z in
    bool_decide (s3 < 64 /\
      N.lor (N.shiftl (N.shiftr b 4) 4) (N.shiftr s3 2) = b /\ N.land s3 0x03 = z))
    (map N.of_nat (seq 0 4))) 256 eq_refl b Hb) as H.
  pose proof (forallb_below _ 4 H z Hz) as H'.
  by apply bool_decide_eq_true in H'.
Qed.

Lemma third_byte c :
  c < 256 ->
  N.land c 0x3F < 64 /\ N.lor (N.shiftl (N.shiftr c 6) 6) (N.land c 0x3F) = c.
Proof.
  intros Hc.
  pose proof (forallb_below (fun c => bool_decide
    (N.land c 0x3F < 64 /\ N.lor (N.shiftl (N.shiftr c 6) 6) (N.land c 0x3F) = c))
    256 eq_refl c Hc) as H.
  by apply bool_decide_eq_true in H.
Qed.

Lemma list_ind3 {A} (P : list A -> Prop) :
  P [] -> (forall a, P [a]) -> (forall a b, P [a; b]) ->
  (forall a b c l, P l -> P (a :: b :: c :: l)) ->
  forall l, P l.
Proof.
  intros H0 H1 H2 H3.
  assert (H : forall n l, (length l <= n)%nat -> P l).
  { induction n as [|n IH]; intros l Hl.
    - destruct l; [done|cbn in Hl; lia].
    - destruct l as [|a [|b [|c l]]]; auto.
      apply H3, IH. cbn in Hl. lia. }
  intros l. by apply (H (length l)).
Qed.

Lemma loop_sextet s i q lc pads out :
  i < 64 ->
  a2b_base64_loop (b2a i :: s) q lc pads out =
  if q =? 0 then a2b_base64_loop s 1 i 0 out
  else if q =? 1 then
    a2b_base64_loop s 2 (N.land i 0x0F) 0
      (out ++ [N.lor (N.shiftl lc 2) (N.shiftr i 4)])
  else if q =? 2 then
    a2b_base64_loop s 3 (N.land i 0x03) 0
      (out ++ [N.lor (N.shiftl lc 4) (N.shiftr i 2)])
  else a2b_base64_loop s 0 0 0 (out ++ [N.lor (N.shiftl lc 6) i]).
Proof.
  intros Hi. destruct (sextet_char i Hi) as (Ha & Hp & _).
  cbn [a2b_base64_loop]. rewrite Ha.
  destruct (b2a i =? BASE64_PAD) eqn:He; [|done].
  by apply N.eqb_eq in He.
Qed.

(** Decoding resumes after each group of four characters with the three
    bytes the group was made from. *)
Lemma decode_group a b c s out :
  a < 256 -> b < 256 -> c < 256 ->
  a2b_base64_loop
    (b2a (N.shiftr a 2)
     :: b2a (N.lor (N.shiftl (N.land a 3) 4) (N.shiftr b 4))
     :: b2a (N.lor (N.shiftl (N.land b 0xF) 2) (N.shiftr c 6))
     :: b2a (N.land c 0x3F) :: s) 0 0 0 out
  = a2b_base64_loop s 0 0 0 (out ++ [a; b; c]).
Proof.
  intros Ha Hb Hc.
  destruct (first_byte a (N.shiftr b 4) Ha (shiftr_below b 4 4 Hb))
    as (H1 & H2 & E1 & L1).
  destruct (second_byte b (N.shiftr c 6) Hb (shiftr_below c 6 2 Hc))
    as (H3 & E2 & L2).
  destruct (third_byte c Hc) as (H4 & E3).
  cbv zeta in *.
  rewrite !loop_sextet by done. cbn [N.eqb Pos.eqb].
  rewrite L1, L2, E1, E2, E3. by rewrite <- !app_assoc.
Qed.

Lemma a2b_base64_encode bs out :
  Forall (fun b => b < 256) bs ->
  a2b_base64_loop (b64encode bs) 0 0 0 out = inr (out ++ bs).
Proof.
  revert out. induction bs as [|a|a b|a b c l IH] using list_ind3; intros out Hbs.
  - cbn. by rewrite app_nil_r.
  - apply Forall_cons in Hbs as [Ha _].
    assert (H0 : (0:N) < 16) by lia.
    destruct (first_byte a 0 Ha H0) as (H1 & H2 & E1 & _). cbv zeta in *.
    rewrite N.lor_0_r in *.
    unfold b64encode. rewrite !loop_sextet by done. cbn [N.eqb Pos.eqb].
    rewrite E1. reflexivity.
  - apply Forall_cons in Hbs as [Ha Hbs]. apply Forall_cons in Hbs as [Hb _].
    destruct (first_byte a (N.shiftr b 4) Ha (shiftr_below b 4 4 Hb))
      as (H1 & H2 & E1 & L1).
    assert (H0 : (0:N) < 4) by lia.
    destruct (second_byte b 0 Hb H0) as (H3 & E2 & _). cbv zeta in *.
    rewrite N.lor_0_r in *.
    unfold b64encode. rewrite !loop_sextet by done. cbn [N.eqb Pos.eqb].
    rewrite L1, E1, E2. cbn. by rewrite <- app_assoc.
  - apply Forall_cons in Hbs as [Ha Hbs]. apply Forall_cons in Hbs as [Hb Hbs].
    apply Forall_cons in Hbs as [Hc Hbs].
    change (b64encode (a :: b :: c :: l)) with
      (b2a (N.shiftr a 2)
       :: b2a (N.lor (N.shiftl (N.land a 3) 4) (N.shiftr b 4))
       :: b2a (N.lor (N.shiftl (N.land b 0xF) 2) (N.shiftr c 6))
       :: b2a (N.land c 0x3F) :: b64encode l).
    rewrite decode_group by done. rewrite IH by done.
    by rewrite <- app_assoc.
Qed.

Lemma b64encode_ascii bs :
  Forall (fun b => b < 256) bs -> forallb (fun c => c <? 128) (b64encode bs) = true.
Proof.
  induction bs as [|a|a b|a b c l IH] using list_ind3; intros Hbs.
  - done.
  - apply Forall_cons in Hbs as [Ha _].
    assert (H0 : (0:N) < 16) by lia.
    destruct (first_byte a 0 Ha H0) as (H1 & H2 & _). cbv zeta in *.
    rewrite N.lor_0_r in *.
    unfold b64encode. cbn [forallb].
    destruct (sextet_char _ H1) as (_ & _ & ->%N.ltb_lt).
    by destruct (sextet_char _ H2) as (_ & _ & ->%N.ltb_lt).
  - apply Forall_cons in Hbs as [Ha Hbs]. apply Forall_cons in Hbs as [Hb _].
    destruct (first_byte a (N.shiftr b 4) Ha (shiftr_below b 4 4 Hb))
      as (H1 & H2 & _).
    assert (H0 : (0:N) < 4) by lia.
    destruct (second_byte b 0 Hb H0) as (H3 & _). cbv zeta in *.
    rewrite N.lor_0_r in *.
    unfold b64encode. cbn [forallb].
    destruct (sextet_char _ H1) as (_ & _ & ->%N.ltb_lt).
    destruct (sextet_char _ H2) as (_ & _ & ->%N.ltb_lt).
    by destruct (sextet_char _ H3) as (_ & _ & ->%N.ltb_lt).
  - apply Forall_cons in Hbs as [Ha Hbs]. apply Forall_cons in Hbs as [Hb Hbs].
    apply Forall_cons in Hbs as [Hc Hbs].
    destruct (first_byte a (N.shiftr b 4) Ha (shiftr_below b 4 4 Hb))
      as (H1 & H2 & _).
    destruct (second_byte b (N.shiftr c 6) Hb (shiftr_below c 6 2 Hc))
      as (H3 & _).
    destruct (third_byte c Hc) as (H4 & _). cbv zeta in *.
    change (b64encode (a :: b :: c :: l)) with
      (b2a (N.shiftr a 2)
       :: b2a (N.lor (N.shiftl (N.land a 3) 4) (N.shiftr b 4))
       :: b2a (N.lor (N.shiftl (N.land b 0xF) 2) (N.shiftr c 6))
       :: b2a (N.land c 0x3F) :: b64encode l).
    cbn [forallb]. rewrite IH by done.
    destruct (sextet_char _ H1) as (_ & _ & ->%N.ltb_lt).
    destruct (sextet_char _ H2) as (_ & _ & ->%N.ltb_lt).
    destruct (sextet_char _ H3) as (_ & _ & ->%N.ltb_lt).
    by destruct (sextet_char _ H4) as (_ & _ & ->%N.ltb_lt).
Qed.

(** [base64.b64decode] undoes [base64.b64encode]. *)
Lemma b64decode_b64encode bs :
  Forall (fun b => b < 256) bs -> b64decode_str (b64encode bs) = inr bs.
Proof.
  intros Hbs. unfold b64decode_str, a2b_base64.
  rewrite b64encode_ascii by done. by rewrite a2b_base64_encode.
Qed.

(** ** Plots *)

(** C5 as stated fails: the content ["QUJD\n"] is accepted by
    [base64.b64decode] (it decodes to ["ABC"]), the response has output type
    ["plot"], the original text as ["plot_data"] and the decoded bytes at
    ["plot_path"]; but the base64 encoding of those bytes is ["QUJD"], not
    ["plot_data"]. *)
Lemma plot_data_is_not_reencoding :
  let run :=
    execute_python_code (world frozen_clock (inr line_feed_reply)) sample_code
      empty_state in
  b64decode_str (py "QUJD" ++ [10]) = inr (py "ABC") /\
  run.1 !! "output_type" = Some (PStr (py "plot")) /\
  run.1 !! "plot_data" = Some (PStr (py "QUJD" ++ [10])) /\
  ~ (exists path bs,
       run.1 !! "plot_path" = Some (PStr path) /\
       files run.2 !! path = Some bs /\
       run.1 !! "plot_data" = Some (PStr (b64encode bs))).
Proof.
  cbv zeta. split; [by vm_compute|]. split; [by vm_compute|].
  split; [by vm_compute|].
  intros (path & bs & Hp & Hf & Hd).
  vm_compute in Hp. injection Hp as <-.
  vm_compute in Hf. injection Hf as <-.
  vm_compute in Hd. discriminate Hd.
Qed.

(** C5, amended: for a reply with return code 0 and well-formed files whose
    last [".png"] entry has content [c], the response has output type
    ["plot"], [c] itself as ["plot_data"], and ["plot_path"] names a file
    holding the bytes [c] decodes to.  ["plot_data"] is the base64 encoding of
    those bytes when [c] is what [b64encode] writes for some bytes. *)
Theorem plot_round_trip env code st result rc out l1 file l2 c :
  replies env code st result ->
  reply_fields result = Some (rc, out, PList (l1 ++ file :: l2)) ->
  eq_zero rc = true ->
  Forall (fun f => well_formed f = true) (l1 ++ file :: l2) ->
  is_png file = true ->
  Forall (fun f => is_png f = false) l2 ->
  entry_content file = Some c ->
  let response := (execute_python_code env code st).1 in
  let st' := (execute_python_code env code st).2 in
  exists path bs,
    b64decode_str c = inr bs /\
    response !! "output_type" = Some (PStr (py "plot")) /\
    response !! "plot_data" = Some (PStr c) /\
    response !! "plot_path" = Some (PStr path) /\
    files st' !! path = Some bs /\
    (forall raw, Forall (fun b => b < 256) raw -> c = b64encode raw ->
       bs = raw /\ b64encode bs = c).
Proof.
  intros Hrep Hfields Hrc Hw Hp Hn Hc.
  destruct (execute_last_plot env code st result rc out l1 file l2
              Hrep Hfields Hrc Hw Hp Hn)
    as (c' & bs & Hc' & Hbs & Htype & Hdata & Hpath & _ & Hfile).
  rewrite Hc in Hc'. injection Hc' as <-. cbv zeta in *.
  eexists _, bs. repeat split; try eassumption.
  - subst c. rewrite b64decode_b64encode in Hbs by done. by injection Hbs.
  - subst c. rewrite b64decode_b64encode in Hbs by done. injection Hbs as <-. done.
Qed.

Lemma plot_round_trip_witness :
  replies (world frozen_clock (inr two_plots_reply)) sample_code empty_state
    two_plots_reply /\
  exists path,
    (execute_python_code (world frozen_clock (inr two_plots_reply)) sample_code
       empty_state).1 !! "plot_path" = Some (PStr path) /\
    (execute_python_code (world frozen_clock (inr two_plots_reply)) sample_code
       empty_state).1 !! "plot_data" = Some (PStr (py "eHl6")) /\
    files (execute_python_code (world frozen_clock (inr two_plots_reply))
       sample_code empty_state).2 !! path = Some (py "xyz").
Proof.
  assert (H1 : replies (world frozen_clock (inr two_plots_reply)) sample_code
                 empty_state two_plots_reply).
  { apply replies_world. vm_compute. eauto. }
  assert (H3 : Forall (fun f => well_formed f = true)
                 ([entry (py "a.png") (py "QUJD"); entry (py "notes.txt") (py "aGk=")]
                  ++ entry (py "b.png") (py "eHl6") :: [])) by (repeat constructor).
  pose proof (plot_round_trip
                (world frozen_clock (inr two_plots_reply)) sample_code empty_state
                two_plots_reply (PInt 0) (py "done")
                [entry (py "a.png") (py "QUJD"); entry (py "notes.txt") (py "aGk=")]
                (entry (py "b.png") (py "eHl6")) [] (py "eHl6")
                H1 eq_refl eq_refl H3 eq_refl (List.Forall_nil _) eq_refl) as H.
  cbv zeta in H. destruct H as (path & bs & Hbs & _ & Hd & Hp & Hf & _).
  vm_compute in Hbs. injection Hbs as <-.
  split; [exact H1|]. exists path. split; [exact Hp|]. split; [exact Hd|exact Hf].
Defined.

(** C6: with several files whose paths end in [".png"], the plot fields come
    from the last of them in the order of the list: ["plot_data"] is its
    content, ["plot_path"] the name made from the clock read of its turn
    (one read for the source file, one for each plot before it), where its
    bytes are; ["output_type"] is ["plot"]. *)
Theorem last_png_wins env code st result rc out l1 file l2 c :
  replies env code st result ->
  reply_fields result = Some (rc, out, PList (l1 ++ file :: l2)) ->
  eq_zero rc = true ->
  Forall (fun f => well_formed f = true) (l1 ++ file :: l2) ->
  is_png file = true ->
  Forall (fun f => is_png f = false) l2 ->
  entry_content file = Some c ->
  let response := (execute_python_code env code st).1 in
  let st' := (execute_python_code env code st).2 in
  let path := plot_path env (clock env (S (ticks st) + count_png l1)) in
  response !! "output_type" = Some (PStr (py "plot")) /\
  response !! "plot_data" = Some (PStr c) /\
  response !! "plot_path" = Some (PStr path) /\
  exists bs, b64decode_str c = inr bs /\ files st' !! path = Some bs.
Proof.
  intros Hrep Hfields Hrc Hw Hp Hn Hc.
  destruct (execute_last_plot env code st result rc out l1 file l2
              Hrep Hfields Hrc Hw Hp Hn)
    as (c' & bs & Hc' & Hbs & Htype & Hdata & Hpath & _ & Hfile).
  rewrite Hc in Hc'. injection Hc' as <-. cbv zeta in *.
  repeat split; try assumption. by exists bs.
Qed.

Lemma last_png_wins_witness :
  replies (world ticking_clock (inr two_plots_reply)) sample_code empty_state
    two_plots_reply /\
  (execute_python_code (world ticking_clock (inr two_plots_reply)) sample_code
     empty_state).1 !! "plot_data" = Some (PStr (py "eHl6")) /\
  (execute_python_code (world ticking_clock (inr two_plots_reply)) sample_code
     empty_state).1 !! "plot_path"
  = Some (PStr (py "/srv/app/temp/plot_d41d8cd9_20240517_090309.png")).
Proof.
  assert (H1 : replies (world ticking_clock (inr two_plots_reply)) sample_code
                 empty_state two_plots_reply).
  { apply replies_world. vm_compute. eauto. }
  assert (H3 : Forall (fun f => well_formed f = true)
                 ([entry (py "a.png") (py "QUJD"); entry (py "notes.txt") (py "aGk=")]
                  ++ entry (py "b.png") (py "eHl6") :: [])) by (repeat constructor).
  pose proof (last_png_wins
                (world ticking_clock (inr two_plots_reply)) sample_code empty_state
                two_plots_reply (PInt 0) (py "done")
                [entry (py "a.png") (py "QUJD"); entry (py "notes.txt") (py "aGk=")]
                (entry (py "b.png") (py "eHl6")) [] (py "eHl6")
                H1 eq_refl eq_refl H3 eq_refl (List.Forall_nil _) eq_refl) as H.
  cbv zeta in H. destruct H as (_ & Hd & Hp & _).
  split; [exact H1|]. split; [exact Hd|]. exact Hp.
Defined.

(** ** File names *)

Lemma get_unique_filename_run env content prefix suffix st bs :
  utf8_encode content = Some bs ->
  get_unique_filename env content prefix suffix st
  = (inr (unique_filename bs prefix suffix (clock env (ticks st))),
     set_ticks S st).
Proof.
  intros H. unfold get_unique_filename. unfold_ops. by rewrite H.
Qed.

(** C7 as worded fails: two calls in the same second with the different
    sources [print(890)] and [print(40914)] send their code under the same
    file name (the first eight digits of the two MD5 hashes agree), and their
    plots, with different bytes, get the same path: the second call
    overwrites the plot of the first. *)
Lemma filenames_collide :
  let run1 :=
    execute_python_code (world frozen_clock (inr (plot_reply (py "QUJD"))))
      (py "print(890)") empty_state in
  let run2 :=
    execute_python_code (world frozen_clock (inr (plot_reply (py "eHl6"))))
      (py "print(40914)") run1.2 in
  py "print(890)" <> py "print(40914)" /\
  (exists name c1 c2,
      requests run2.2 = [payload name c1; payload name c2] /\ c1 <> c2) /\
  (exists path,
      run1.1 !! "plot_path" = Some (PStr path) /\
      run2.1 !! "plot_path" = Some (PStr path) /\
      files run1.2 !! path = Some (py "ABC") /\
      files run2.2 !! path = Some (py "xyz")).
Proof.
  cbv zeta. split; [by vm_compute|]. split.
  - exists (py "1cb830d5_20240517_090307.py"), (b64encode (py "print(890)")),
      (b64encode (py "print(40914)")).
    split; [by vm_compute|]. by vm_compute.
  - exists (py "/srv/app/temp/plot_d41d8cd9_20240517_090307.png").
    repeat split; by vm_compute.
Qed.

(** X1: a generated name is the prefix, the first eight hexadecimal digits
    of the MD5 of the content, an underscore, the time to the second, and the
    suffix.  For two contents named at the same second the names are equal
    exactly when the eight digits are; equal contents get equal names; and
    the name of a plot, hashed over the empty string, is
    [plot_d41d8cd9_<time>.png] whatever the source of the call. *)
Theorem filename_scheme env c1 c2 bs1 bs2 prefix suffix st1 st2 :
  utf8_encode c1 = Some bs1 -> utf8_encode c2 = Some bs2 ->
  clock env (ticks st1) = clock env (ticks st2) ->
  let name1 := (get_unique_filename env c1 prefix suffix st1).1 in
  let name2 := (get_unique_filename env c2 prefix suffix st2).1 in
  let plot1 := (get_unique_filename env [] (py "plot_") (py ".png") st1).1 in
  name1 = inr (prefix ++ take 8 (md5_hexdigest bs1) ++ py "_"
               ++ strftime (clock env (ticks st1)) ++ suffix) /\
  (name1 = name2 <-> take 8 (md5_hexdigest bs1) = take 8 (md5_hexdigest bs2)) /\
  (c1 = c2 -> name1 = name2) /\
  plot1 = inr (py "plot_d41d8cd9_" ++ strftime (clock env (ticks st1)) ++ py ".png").
Proof.
  intros H1 H2 Hclock. cbv zeta.
  rewrite (get_unique_filename_run env c1 prefix suffix st1 bs1 H1).
  rewrite (get_unique_filename_run env c2 prefix suffix st2 bs2 H2).
  rewrite (get_unique_filename_run env [] (py "plot_") (py ".png") st1 []
             utf8_encode_nil).
  cbn [fst]. rewrite <- Hclock. unfold unique_filename, format_filename.
  split; [done|]. split; [|split].
  - split.
    + intros [= H]. apply app_inv_head in H.
      by apply List.app_inv_tail in H.
    + by intros ->.
  - intros ->. rewrite H1 in H2. by injection H2 as ->.
  - reflexivity.
Qed.

Lemma filename_scheme_witness :
  utf8_encode (py "print(890)") = Some (py "print(890)") /\
  utf8_encode (py "print(40914)") = Some (py "print(40914)") /\
  (get_unique_filename (world frozen_clock (inl (Exn URLError []))) (py "print(890)")
     [] (py ".py") empty_state).1
  = inr (py "1cb830d5_20240517_090307.py") /\
  (get_unique_filename (world frozen_clock (inl (Exn URLError []))) (py "print(890)")
     [] (py ".py") empty_state).1
  = (get_unique_filename (world frozen_clock (inl (Exn URLError [])))
       (py "print(40914)") [] (py ".py") (set_ticks S empty_state)).1.
Proof.
  pose proof (filename_scheme (world frozen_clock (inl (Exn URLError [])))
                (py "print(890)") (py "print(40914)")
                (py "print(890)") (py "print(40914)") [] (py ".py")
                empty_state (set_ticks S empty_state)
                eq_refl eq_refl eq_refl) as H.
  cbv zeta in H. destruct H as (Hname & Hiff & _ & _).
  assert (H890 : take 8 (md5_hexdigest (py "print(890)")) = py "1cb830d5")
    by (vm_compute; reflexivity).
  assert (H40914 : take 8 (md5_hexdigest (py "print(40914)")) = py "1cb830d5")
    by (vm_compute; reflexivity).
  split; [reflexivity|]. split; [reflexivity|]. split.
  - rewrite Hname, H890. reflexivity.
  - apply Hiff. by rewrite H890, H40914.
Defined.


(** ** What a call leaves on disk *)

Lemma startswith_app a b : startswith (a ++ b) a = true.
Proof.
  induction a as [|c a IH]; cbn; [by destruct b|]. by rewrite N.eqb_refl.
Qed.

Lemma endswith_app a b : endswith (a ++ b) b = true.
Proof. unfold endswith. rewrite rev_app_distr. apply startswith_app. Qed.

(** The path of a plot: in the working directory, with the fixed prefix and
    the extension [.png]. *)
Lemma plot_path_shape env t :
  startswith (plot_path env t) (TEMP_DIR env) = true /\
  endswith (plot_path env t) (py "plot_d41d8cd9_" ++ strftime t ++ py ".png") = true /\
  endswith (plot_path env t) (py ".png") = true.
Proof.
  unfold plot_path, path_join.
  replace (unique_filename [] (py "plot_") (py ".png") t)
    with (py "plot_d41d8cd9_" ++ strftime t ++ py ".png") by reflexivity.
  change (startswith (py "plot_d41d8cd9_" ++ strftime t ++ py ".png") (py "/"))
    with false. cbv iota.
  destruct (_ || _).
  - split; [apply startswith_app|]. split; [apply endswith_app|].
    rewrite !app_assoc. apply endswith_app.
  - split; [apply startswith_app|]. split.
    + rewrite app_assoc. apply endswith_app.
    + rewrite !app_assoc. apply endswith_app.
Qed.

Lemma execute_dirs env code st :
  dirs (execute_python_code env code st).2
  = match faults env (Makedirs (TEMP_DIR env)) with
    | Some _ => dirs st
    | None => {[TEMP_DIR env]} ∪ dirs st
    end.
Proof.
  unfold execute_python_code.
  assert (H : dirs (try_body env code st).2
              = match faults env (Makedirs (TEMP_DIR env)) with
                | Some _ => dirs st
                | None => {[TEMP_DIR env]} ∪ dirs st
                end).
  { unfold try_body.
    pose proof (with_body_frame env code) as Hbody.
    match goal with
    | |- context [with_tempdir env ?b] => set (body := b) in *
    end.
    change (forall tmp, preserves (inner_frame env tmp) (body tmp)) in Hbody.
    clearbody body. unfold makedirs. unfold io, modify, mbind, M_bind.
    destruct (faults env (Makedirs _)) as [e|]; cbn; [done|].
    pose proof (with_tempdir_frame env body
      (set_dirs (fun d => {[TEMP_DIR env]} ∪ d) st) Hbody) as H.
    cbn in H. by destruct H as (Hd & _). }
  destruct (try_body env code st) as [[e|r] st']; exact H.
Qed.

(** X2: the side effects of a call.  The working directory is created unless
    [makedirs] fails, and a call that finds it there leaves the directories
    as they are; the temporary directory is gone afterwards unless its
    removal fails; no file is removed; and every file created or rewritten is
    a plot: it lies in the working directory under the name
    [plot_d41d8cd9_<time>.png] for a clock read made during the call. *)
Theorem call_side_effects env code st :
  let st' := (execute_python_code env code st).2 in
  (faults env (Makedirs (TEMP_DIR env)) = None ->
     dirs st' = {[TEMP_DIR env]} ∪ dirs st) /\
  (TEMP_DIR env ∈ dirs st -> dirs st' = dirs st) /\
  (faults env (Rmtree (mkdtemp_name env)) = None -> tmpdirs st' = tmpdirs st) /\
  (forall p, is_Some (files st !! p) -> is_Some (files st' !! p)) /\
  (forall p, files st' !! p <> files st !! p ->
     exists k, (ticks st <= k < ticks st')%nat /\
       p = plot_path env (clock env k) /\
       startswith p (TEMP_DIR env) = true /\
       endswith p (py "plot_d41d8cd9_" ++ strftime (clock env k) ++ py ".png")
         = true).
Proof.
  cbv zeta.
  destruct (execute_frame env code st) as (_ & Ht & _ & Hg & Hp).
  pose proof (execute_dirs env code st) as Hd.
  split; [|split; [|split; [|split]]].
  - intros Hm. by rewrite Hm in Hd.
  - intros Hin. rewrite Hd. destruct (faults env (Makedirs (TEMP_DIR env))); [reflexivity|].
    apply set_eq. intros x. rewrite elem_of_union, elem_of_singleton.
    split; [intros [->|]; done|by right].
  - exact Ht.
  - exact Hg.
  - intros p Hne. destruct (Hp p Hne) as (k & Hk & ->). exists k.
    destruct (plot_path_shape env (clock env k)) as (H1 & H2 & _). done.
Qed.

(** X3: when every clock read of a call falls in the same second, the call
    creates or rewrites at most one file. *)
Theorem one_second_one_file env code st t :
  let st' := (execute_python_code env code st).2 in
  (forall k, (ticks st <= k < ticks st')%nat -> clock env k = t) ->
  forall p q,
    files st' !! p <> files st !! p -> files st' !! q <> files st !! q ->
    p = q /\ p = plot_path env t.
Proof.
  cbv zeta. intros Hclock p q Hp Hq.
  destruct (execute_frame env code st) as (_ & _ & _ & _ & Hplots).
  destruct (Hplots p Hp) as (k & Hk & ->).
  destruct (Hplots q Hq) as (k' & Hk' & ->).
  by rewrite (Hclock k Hk), (Hclock k' Hk').
Qed.

Lemma one_second_one_file_witness :
  (forall k : nat, frozen_clock k = nine_oh_three 7) /\
  (forall p q,
     files (execute_python_code (world frozen_clock (inr two_plots_reply))
              sample_code empty_state).2 !! p <> files empty_state !! p ->
     files (execute_python_code (world frozen_clock (inr two_plots_reply))
              sample_code empty_state).2 !! q <> files empty_state !! q ->
     p = q /\ p = py "/srv/app/temp/plot_d41d8cd9_20240517_090307.png").
Proof.
  split; [reflexivity|].
  apply (one_second_one_file (world frozen_clock (inr two_plots_reply))
           sample_code empty_state (nine_oh_three 7)).
  intros k _. reflexivity.
Defined.

(** X4: one write per plot.  For a reply with return code 0 and well-formed
    files, the working directory after the call is the one before it with one
    write per entry whose path ends in [".png"], made in the order of the list:
    the decoded bytes of the entry, under the name of the clock read of its turn
    (read 0 names the source file).  So an entry whose name no later plot of
    the list is given holds exactly its own bytes: plots handled in different
    seconds are all kept. *)
Theorem every_plot_is_written env code st result rc out items :
  replies env code st result ->
  reply_fields result = Some (rc, out, PList items) ->
  eq_zero rc = true ->
  Forall (fun f => well_formed f = true) items ->
  let st' := (execute_python_code env code st).2 in
  files st' = store (files st) (plots_written env items (S (ticks st))) /\
  forall l1 file l2,
    items = l1 ++ file :: l2 -> is_png file = true ->
    let path := plot_path env (clock env (S (ticks st) + count_png l1)) in
    (forall j, (j < count_png l2)%nat ->
       plot_path env (clock env (S (S (ticks st) + count_png l1) + j)) <> path) ->
    exists bs, entry_bytes file = Some bs /\ files st' !! path = Some bs.
Proof.
  intros Hrep Hfields Hrc Hw. cbv zeta.
  destruct (execute_success env code st result rc out items Hrep Hfields Hrc Hw)
    as (st1 & r & Hfiles & Hticks & _ & _ & ->).
  destruct Hrep as (Hf & _).
  rewrite process_files_disk by done. rewrite Hfiles, Hticks.
  split; [done|].
  intros l1 file l2 -> Hp Hlater.
  apply Forall_app in Hw as [_ Hw]. apply Forall_cons in Hw as [Hfile _].
  destruct (well_formed_png file Hfile Hp) as (c & bs & _ & _ & Heb).
  exists bs. split; [done|].
  rewrite plots_written_app, store_app. cbn [plots_written]. rewrite Hp, Heb.
  cbn [default]. rewrite store_cons, store_other.
  - by rewrite lookup_insert_eq.
  - by apply plots_written_names.
Qed.

Lemma every_plot_is_written_witness :
  replies (world ticking_clock (inr two_plots_reply)) sample_code empty_state
    two_plots_reply /\
  files (execute_python_code (world ticking_clock (inr two_plots_reply))
           sample_code empty_state).2
    !! py "/srv/app/temp/plot_d41d8cd9_20240517_090308.png" = Some (py "ABC") /\
  files (execute_python_code (world ticking_clock (inr two_plots_reply))
           sample_code empty_state).2
    !! py "/srv/app/temp/plot_d41d8cd9_20240517_090309.png" = Some (py "xyz").
Proof.
  assert (H1 : replies (world ticking_clock (inr two_plots_reply)) sample_code
                 empty_state two_plots_reply).
  { apply replies_world. vm_compute. eauto. }
  assert (H3 : Forall (fun f => well_formed f = true)
                 [entry (py "a.png") (py "QUJD"); entry (py "notes.txt") (py "aGk=");
                  entry (py "b.png") (py "eHl6")]) by (repeat constructor).
  destruct (every_plot_is_written (world ticking_clock (inr two_plots_reply))
              sample_code empty_state two_plots_reply (PInt 0) (py "done") _
              H1 eq_refl eq_refl H3) as (_ & Heach).
  split; [exact H1|]. split.
  - destruct (Heach [] (entry (py "a.png") (py "QUJD"))
                [entry (py "notes.txt") (py "aGk="); entry (py "b.png") (py "eHl6")]
                eq_refl eq_refl) as (bs & Hbs & Hfile).
    { intros [|j] Hj; [vm_compute; discriminate|vm_compute in Hj; lia]. }
    vm_compute in Hbs. injection Hbs as <-.
    assert (Hpath : plot_path (world ticking_clock (inr two_plots_reply))
                      (clock (world ticking_clock (inr two_plots_reply))
                         (S (ticks empty_state) + count_png []))
                    = py "/srv/app/temp/plot_d41d8cd9_20240517_090308.png")
      by (vm_compute; reflexivity).
    rewrite Hpath in Hfile. exact Hfile.
  - destruct (Heach [entry (py "a.png") (py "QUJD"); entry (py "notes.txt") (py "aGk=")]
                (entry (py "b.png") (py "eHl6")) [] eq_refl eq_refl)
      as (bs & Hbs & Hfile).
    { intros j Hj. vm_compute in Hj. lia. }
    vm_compute in Hbs. injection Hbs as <-.
    assert (Hpath : plot_path (world ticking_clock (inr two_plots_reply))
                      (clock (world ticking_clock (inr two_plots_reply))
                         (S (ticks empty_state)
                          + count_png [entry (py "a.png") (py "QUJD");
                                       entry (py "notes.txt") (py "aGk=")]))
                    = py "/srv/app/temp/plot_d41d8cd9_20240517_090309.png")
      by (vm_compute; reflexivity).
    rewrite Hpath in Hfile. exact Hfile.
Defined.

(** ** The request *)

Lemma lor_below a b n : a < 2 ^ n -> b < 2 ^ n -> N.lor a b < 2 ^ n.
Proof.
  intros Ha Hb.
  destruct (N.eq_dec (N.lor a b) 0) as [->|Hne]; [lia|].
  apply N.log2_lt_pow2; [lia|]. rewrite N.log2_lor.
  destruct (N.eq_dec a 0) as [->|Ha0], (N.eq_dec b 0) as [->|Hb0].
  - by rewrite N.lor_0_l in Hne.
  - apply N.log2_lt_pow2 in Hb; [|lia]. cbn. lia.
  - apply N.log2_lt_pow2 in Ha; [|lia]. cbn. lia.
  - apply N.log2_lt_pow2 in Ha; [|lia]. apply N.log2_lt_pow2 in Hb; [|lia]. lia.
Qed.

Lemma continuation_byte x : N.lor 0x80 (N.land x 0x3F) < 256.
Proof.
  apply (lor_below _ _ 8); [done|].
  change 0x3F with (N.ones 6). rewrite N.land_ones.
  pose proof (N.mod_upper_bound x (2 ^ 6)). lia.
Qed.

(** UTF-8 text is made of octets. *)
Lemma utf8_char_octets c b :
  utf8_char c = Some b -> Forall (fun x => x < 256) b.
Proof.
  unfold utf8_char.
  destruct (c <? 0x80) eqn:H1.
  { intros [= <-]. apply N.ltb_lt in H1. repeat constructor. lia. }
  destruct (c <? 0x800) eqn:H2.
  { intros [= <-]. apply N.ltb_lt in H2. repeat constructor.
    - apply (lor_below _ _ 8); [done|].
      pose proof (shiftr_below c 6 5 H2). lia.
    - apply continuation_byte. }
  destruct (_ && _); [done|].
  destruct (c <? 0x10000) eqn:H3.
  { intros [= <-]. apply N.ltb_lt in H3. repeat constructor.
    - apply (lor_below _ _ 8); [done|].
      pose proof (shiftr_below c 12 4 H3). lia.
    - apply continuation_byte.
    - apply continuation_byte. }
  destruct (c <? 0x110000) eqn:H4; [|done].
  intros [= <-]. apply N.ltb_lt in H4. repeat constructor.
  - apply (lor_below _ _ 8); [done|].
    assert (H : c < 2 ^ (18 + 3)) by (cbn; lia).
    pose proof (shiftr_below c 18 3 H). lia.
  - apply continuation_byte.
  - apply continuation_byte.
  - apply continuation_byte.
Qed.

Lemma utf8_encode_octets s bs :
  utf8_encode s = Some bs -> Forall (fun x => x < 256) bs.
Proof.
  revert bs. induction s as [|c s IH]; intros bs.
  - intros [= <-]. constructor.
  - unfold utf8_encode; fold utf8_encode.
    destruct (utf8_char c) as [b|] eqn:Hc; [|done].
    destruct (utf8_encode s) as [bs'|]; [|done].
    intros [= <-]. apply Forall_app. split; [by eapply utf8_char_octets|by apply IH].
Qed.

(** X5: the request.  When no system call fails, the temporary name is free
    and the source has no lone surrogate, the call sends one request,
    [{"args": [name], "files": [{"path": name, "content": c}]}], where [name]
    is the generated name and [c] the base64 text of the UTF-8 bytes of the
    dedented, trimmed source; decoding [c] gives those bytes back.  This
    holds whatever the sandbox answers. *)
Theorem request_sent env code st bs :
  no_faults env -> tmpdirs st !! mkdtemp_name env = None ->
  utf8_encode code = Some bs ->
  exists raw,
    utf8_encode (strip (dedent code)) = Some raw /\
    requests (execute_python_code env code st).2
    = requests st
      ++ [payload (unique_filename bs [] (py ".py") (clock env (ticks st)))
            (b64encode raw)] /\
    b64decode_str (b64encode raw) = inr raw.
Proof.
  intros Hf Hfresh Hbs.
  destruct (normalised_encodable code) as [raw Hraw]; [by eauto|].
  exists raw. split; [done|].
  split; [|by apply b64decode_b64encode, (utf8_encode_octets _ _ Hraw)].
  unfold execute_python_code, try_body. unfold_ops.
  rewrite !Hf. cbn. rewrite Hfresh. cbn. rewrite Hbs. cbn. rewrite !Hf. cbn.
  rewrite Hraw. cbn. rewrite !lookup_insert_eq. cbn.
  rewrite !lookup_insert_eq. cbn.
  fold (unique_filename bs [] (py ".py") (clock env (ticks st))).
  destruct (sandbox env _) as [e|result]; cbn; [done|].
  match goal with
  | |- context [build_response env result ?s] =>
      destruct (build_response_frame env result s) as (_ & _ & Hr & _);
      destruct (build_response env result s) as [[e|r] st2]
  end; cbn in *; by rewrite Hr.
Qed.

Lemma request_sent_witness :
  exists raw,
    utf8_encode (strip (dedent sample_code)) = Some raw /\
    requests (execute_python_code (world frozen_clock (inr two_plots_reply))
                sample_code empty_state).2
    = [payload (py "0a036e3f_20240517_090307.py") (py "cHJpbnQoJ2hpJyk=")].
Proof.
  destruct (request_sent (world frozen_clock (inr two_plots_reply)) sample_code
              empty_state sample_code (fun _ => eq_refl) eq_refl eq_refl)
    as (raw & Hraw & Hreq & _).
  exists raw. split; [exact Hraw|]. rewrite Hreq.
  vm_compute in Hraw. injection Hraw as <-. vm_compute. reflexivity.
Defined.

(** X6: a call sends at most one request, and only the payload made from its
    source; nothing is retried, whatever fails. *)
Theorem at_most_one_request env code st :
  requests (execute_python_code env code st).2 = requests st \/
  exists data,
    request_for env code st = Some data /\
    requests (execute_python_code env code st).2 = requests st ++ [data].
Proof.
  assert (H : requests (try_body env code st).2 = requests st \/
              exists data, request_for env code st = Some data /\
                requests (try_body env code st).2 = requests st ++ [data]).
  { unfold try_body. unfold_ops.
    destruct (faults env (Makedirs _)) as [e|]; cbn; [by left|].
    destruct (faults env Mkdtemp) as [e|]; cbn; [by left|].
    destruct (tmpdirs st !! mkdtemp_name env) as [old|]; cbn; [by left|].
    destruct (utf8_encode code) as [bs|] eqn:Hbs; cbn;
      [|destruct (faults env (Rmtree _)); cbn; by left].
    destruct (faults env (OpenWrite _)) as [e|]; cbn;
      [destruct (faults env (Rmtree _)); cbn; by left|].
    destruct (utf8_encode (strip (dedent code))) as [raw|] eqn:Hraw; cbn;
      [|destruct (faults env (Rmtree _)); cbn; by left].
    destruct (faults env (OpenRead _)) as [e|]; cbn;
      [destruct (faults env (Rmtree _)); cbn; by left|].
    rewrite !lookup_insert_eq. cbn. rewrite !lookup_insert_eq. cbn.
    right. eexists. split; [unfold request_for; rewrite Hbs, Hraw; reflexivity|].
    unfold unique_filename.
    destruct (sandbox env _) as [e|result]; cbn;
      [destruct (faults env (Rmtree _)); cbn; reflexivity|].
    match goal with
    | |- context [build_response env result ?s] =>
        destruct (build_response_frame env result s) as (_ & _ & Hr & _);
        destruct (build_response env result s) as [[e|r] st2]
    end; cbn in *; destruct (faults env (Rmtree _)); cbn; by rewrite Hr. }
  unfold execute_python_code.
  destruct (try_body env code st) as [[e|r] st']; exact H.
Qed.

(** X7: a sandbox that cannot be reached, or whose reply cannot be parsed.
    When lines 84 to 90 raise [e], the call returns the system error with
    [str(e)] as message; the request went out once, no file was written, the
    temporary directory is gone and one line was logged. *)
Theorem sandbox_unreachable env code st data e :
  no_faults env -> tmpdirs st !! mkdtemp_name env = None ->
  request_for env code st = Some data -> sandbox env data = inl e ->
  let run := execute_python_code env code st in
  run.1 = system_error e /\
  files run.2 = files st /\
  tmpdirs run.2 = tmpdirs st /\
  requests run.2 = requests st ++ [data] /\
  logged run.2 = logged st ++ [log_line e].
Proof.
  intros Hf Hfresh Hreq Hsb. unfold request_for in Hreq.
  destruct (utf8_encode code) as [bs|] eqn:Hbs; [|done].
  destruct (utf8_encode (strip (dedent code))) as [raw|] eqn:Hraw; [|done].
  simpl in Hreq. injection Hreq as <-.
  unfold execute_python_code, try_body. unfold_ops.
  rewrite !Hf. cbn. rewrite Hfresh. cbn. rewrite Hbs. cbn. rewrite !Hf. cbn.
  rewrite Hraw. cbn. rewrite !lookup_insert_eq. cbn.
  rewrite !lookup_insert_eq. cbn.
  fold (unique_filename bs [] (py ".py") (clock env (ticks st))).
  rewrite Hsb. cbn. repeat split.
  rewrite !delete_insert_eq. by apply delete_id.
Qed.

Lemma sandbox_unreachable_witness :
  (execute_python_code
     (world frozen_clock (inl (Exn URLError (py "<urlopen error [Errno 111] Connection refused>"))))
     sample_code empty_state).1 !! "error_message"
  = Some (PStr (py "<urlopen error [Errno 111] Connection refused>")) /\
  files (execute_python_code
     (world frozen_clock (inl (Exn URLError (py "<urlopen error [Errno 111] Connection refused>"))))
     sample_code empty_state).2 = ∅.
Proof.
  destruct (sandbox_unreachable
     (world frozen_clock (inl (Exn URLError (py "<urlopen error [Errno 111] Connection refused>"))))
     sample_code empty_state
     (payload (py "0a036e3f_20240517_090307.py") (py "cHJpbnQoJ2hpJyk="))
     (Exn URLError (py "<urlopen error [Errno 111] Connection refused>"))
     (fun _ => eq_refl) eq_refl eq_refl eq_refl) as (Hr & Hfiles & _).
  split; [by rewrite Hr|exact Hfiles].
Defined.

(** X8: an entry the loop cannot get through.  When a reply with return code
    0 lists, after well-formed entries, one that is not a dictionary, has no
    string under ["path"], or is a [".png"] entry without base64 text under
    ["content"], the call returns the system error of the exception that entry
    raises: the success of the program is not reported.  The working directory
    is left as the entries before it made it, with one exception: a failing
    [".png"] entry has opened its own file by then, which is left empty; so
    the earlier plots keep their bytes unless the failing entry is named in
    the same second as one of them, which it truncates. *)
Theorem malformed_entry env code st result rc out l1 file l2 :
  replies env code st result ->
  reply_fields result = Some (rc, out, PList (l1 ++ file :: l2)) ->
  eq_zero rc = true ->
  Forall (fun f => well_formed f = true) l1 ->
  well_formed file = false ->
  let run := execute_python_code env code st in
  let before := store (files st) (plots_written env l1 (S (ticks st))) in
  let path := plot_path env (clock env (S (ticks st) + count_png l1)) in
  (exists e, (forall r s, (process_file env file r s).1 = inl e) /\
             run.1 = system_error e) /\
  run.1 !! "status" = Some (PStr (py "error")) /\
  run.1 !! "returncode" = None /\
  files run.2 = (if is_png file then <[path := []]> before else before).
Proof.
  intros Hrep Hfields Hrc Hw Hbad.
  destruct (try_body_replies env code st result Hrep)
    as (st1 & data & Hrun & Hfiles & _ & Hticks & _).
  destruct Hrep as (Hf & _).
  unfold execute_python_code. rewrite Hrun.
  rewrite (build_response_success env result rc out _ st1 Hfields Hrc).
  rewrite process_files_app.
  pose proof (process_files_disk env l1 (success_start rc out) st1 Hf Hw) as Hdisk.
  destruct (process_files_wf env l1 (success_start rc out) st1 Hf Hw)
    as (r1 & stA & Hloop & HtA).
  rewrite Hloop in *. cbn [snd] in Hdisk.
  cbn [process_files]. unfold mbind, M_bind.
  destruct (process_file_malformed env file Hf Hbad) as (e & Hstop).
  rewrite Hstop. cbn. destruct (system_error_fields e) as (Hs & _ & _ & Hn & _).
  split; [|split; [done|split; [done|]]].
  - exists e. split; [|done]. intros r s. by rewrite Hstop.
  - destruct (is_png file); cbn; rewrite Hdisk, ?HtA, Hfiles, Hticks; reflexivity.
Qed.

Lemma malformed_entry_witness :
  replies (world ticking_clock (inr broken_plot_reply)) sample_code empty_state
    broken_plot_reply /\
  (execute_python_code (world ticking_clock (inr broken_plot_reply)) sample_code
     empty_state).1
  = system_error
      (Exn BinasciiError
         (py "Invalid base64-encoded string: number of data characters (1) cannot be 1 more than a multiple of 4")) /\
  files (execute_python_code (world ticking_clock (inr broken_plot_reply))
           sample_code empty_state).2
    !! py "/srv/app/temp/plot_d41d8cd9_20240517_090308.png" = Some (py "ABC") /\
  files (execute_python_code (world ticking_clock (inr broken_plot_reply))
           sample_code empty_state).2
    !! py "/srv/app/temp/plot_d41d8cd9_20240517_090309.png" = Some [] /\
  replies (world frozen_clock (inr broken_plot_reply)) sample_code empty_state
    broken_plot_reply /\
  files (execute_python_code (world frozen_clock (inr broken_plot_reply))
           sample_code empty_state).2
    !! py "/srv/app/temp/plot_d41d8cd9_20240517_090307.png" = Some [].
Proof.
  assert (H1 : forall clk, replies (world clk (inr broken_plot_reply)) sample_code
                 empty_state broken_plot_reply).
  { intros clk. apply replies_world. vm_compute. eauto. }
  assert (H3 : Forall (fun f => well_formed f = true)
                 [entry (py "a.png") (py "QUJD")]) by (repeat constructor).
  destruct (malformed_entry (world ticking_clock (inr broken_plot_reply))
              sample_code empty_state broken_plot_reply (PInt 0) []
              [entry (py "a.png") (py "QUJD")] (entry (py "b.png") (py "Q")) []
              (H1 ticking_clock) eq_refl eq_refl H3 eq_refl)
    as ((e & He & Hresp) & _ & _ & Hfiles).
  destruct (malformed_entry (world frozen_clock (inr broken_plot_reply))
              sample_code empty_state broken_plot_reply (PInt 0) []
              [entry (py "a.png") (py "QUJD")] (entry (py "b.png") (py "Q")) []
              (H1 frozen_clock) eq_refl eq_refl H3 eq_refl)
    as (_ & _ & _ & Hfrozen).
  split; [exact (H1 ticking_clock)|]. split.
  { rewrite Hresp. specialize (He ∅ empty_state). vm_compute in He.
    injection He as <-. reflexivity. }
  split; [rewrite Hfiles; vm_compute; reflexivity|].
  split; [rewrite Hfiles; vm_compute; reflexivity|].
  split; [exact (H1 frozen_clock)|].
  rewrite Hfrozen. vm_compute. reflexivity.
Defined.

(** ** Replies of other shapes *)

(** X9: a reply that is valid JSON but not an object (a list, a string, a
    number, [null]) makes [result.get] raise: the call returns a system
    error naming the missing attribute, and writes no file. *)
Theorem reply_not_an_object env code st result :
  replies env code st result ->
  (forall d, result <> PDict d) ->
  let run := execute_python_code env code st in
  run.1 = system_error (no_attribute result "get") /\
  files run.2 = files st.
Proof.
  intros Hrep Hnd.
  destruct (try_body_replies env code st result Hrep)
    as (st1 & data & Hrun & Hfiles & _).
  unfold execute_python_code. rewrite Hrun.
  unfold build_response. unfold_ops.
  destruct result as [| | | | |d]; cbn; try done. by destruct (Hnd d).
Qed.

Lemma reply_not_an_object_witness :
  replies (world frozen_clock (inr (PList []))) sample_code empty_state (PList []) /\
  (execute_python_code (world frozen_clock (inr (PList []))) sample_code
     empty_state).1 !! "error_message"
  = Some (PStr (py "'list' object has no attribute 'get'")).
Proof.
  assert (H1 : replies (world frozen_clock (inr (PList []))) sample_code
                 empty_state (PList [])).
  { apply replies_world. vm_compute. eauto. }
  assert (H2 : forall d, PList [] <> PDict d) by (intros d; discriminate).
  destruct (reply_not_an_object (world frozen_clock (inr (PList []))) sample_code
              empty_state (PList []) H1 H2) as (Hr & _).
  split; [exact H1|]. rewrite Hr. reflexivity.
Defined.

(** X10: output that is not a string (for instance [null]) makes [.strip()]
    raise: the call returns a system error even when the return code is not
    0, so the execution error is not reported. *)
Theorem stdout_not_a_string env code st d v :
  replies env code st (PDict d) ->
  assoc (py "stdout") d = Some v ->
  (forall s, v <> PStr s) ->
  let run := execute_python_code env code st in
  run.1 = system_error (no_attribute v "strip") /\
  run.1 !! "error_type" = Some (PStr (py "system_error")) /\
  files run.2 = files st.
Proof.
  intros Hrep Hv Hns.
  destruct (try_body_replies env code st (PDict d) Hrep)
    as (st1 & data & Hrun & Hfiles & _).
  unfold execute_python_code. rewrite Hrun.
  unfold build_response. unfold_ops. cbn. rewrite Hv. cbn.
  destruct v as [| | |s| |]; cbn; try done. by destruct (Hns s).
Qed.

Lemma stdout_not_a_string_witness :
  replies (world frozen_clock
             (inr (PDict [(py "returncode", PInt 1); (py "stdout", PNone)])))
    sample_code empty_state
    (PDict [(py "returncode", PInt 1); (py "stdout", PNone)]) /\
  (execute_python_code
     (world frozen_clock
        (inr (PDict [(py "returncode", PInt 1); (py "stdout", PNone)])))
     sample_code empty_state).1 !! "error_message"
  = Some (PStr (py "'NoneType' object has no attribute 'strip'")).
Proof.
  assert (H1 : replies (world frozen_clock
                 (inr (PDict [(py "returncode", PInt 1); (py "stdout", PNone)])))
                 sample_code empty_state
                 (PDict [(py "returncode", PInt 1); (py "stdout", PNone)])).
  { apply replies_world. vm_compute. eauto. }
  assert (H2 : forall s, PNone <> PStr s) by (intros s; discriminate).
  destruct (stdout_not_a_string _ sample_code empty_state _ PNone H1 eq_refl H2)
    as (Hr & _).
  split; [exact H1|]. rewrite Hr. reflexivity.
Defined.

(** X11: no output.  A reply with return code 0 (or none), output that is
    empty once trimmed (or none) and files that are missing, [null] or
    empty gives exactly the response of kind ["none"], and no file is
    written. *)
Theorem no_output env code st result rc fv :
  replies env code st result ->
  reply_fields result = Some (rc, [], fv) ->
  eq_zero rc = true -> truthy fv = false ->
  let run := execute_python_code env code st in
  run.1 = update ∅
            [ ("status", PStr (py "success")); ("returncode", rc);
              ("output_type", PStr (py "none"));
              ("details",
               PStr (py "Code executed successfully but produced no output")) ] /\
  files run.2 = files st.
Proof.
  intros Hrep Hfields Hrc Hfv.
  destruct (try_body_replies env code st result Hrep)
    as (st1 & data & Hrun & Hfiles & _).
  unfold execute_python_code. rewrite Hrun.
  apply reply_fields_get in Hfields as (raw & Hg1 & Hg2 & Hst & Hg3).
  unfold build_response. unfold_ops. rewrite Hg1, Hg2, Hg3. cbn.
  rewrite Hrc, Hst, Hfv. cbn. done.
Qed.

Lemma no_output_witness :
  replies (world frozen_clock (inr (PDict []))) sample_code empty_state (PDict []) /\
  (execute_python_code (world frozen_clock (inr (PDict []))) sample_code
     empty_state).1 !! "output_type" = Some (PStr (py "none")) /\
  (execute_python_code (world frozen_clock (inr (PDict []))) sample_code
     empty_state).1 !! "returncode" = Some (PInt 0).
Proof.
  assert (H1 : replies (world frozen_clock (inr (PDict []))) sample_code
                 empty_state (PDict [])).
  { apply replies_world. vm_compute. eauto. }
  destruct (no_output (world frozen_clock (inr (PDict []))) sample_code
              empty_state (PDict []) (PInt 0) (PList [])
              H1 eq_refl eq_refl eq_refl) as (Hr & _).
  split; [exact H1|]. rewrite Hr. split; reflexivity.
Defined.

(** X12: text only.  A reply with return code 0, output that is not empty
    once trimmed, and well-formed files none of which is a plot gives exactly
    the response of kind ["text"] with the trimmed output; it has no plot
    fields and no file is written. *)
Theorem text_only env code st result rc out items :
  replies env code st result ->
  reply_fields result = Some (rc, out, PList items) ->
  eq_zero rc = true -> out <> [] ->
  Forall (fun f => well_formed f = true) items ->
  Forall (fun f => is_png f = false) items ->
  let run := execute_python_code env code st in
  run.1 = update ∅
            [ ("status", PStr (py "success")); ("returncode", rc);
              ("output_type", PStr (py "text")); ("stdout", PStr out);
              ("details",
               PStr (py "Code executed successfully and produced text output")) ] /\
  run.1 !! "plot_data" = None /\ run.1 !! "plot_path" = None /\
  files run.2 = files st.
Proof.
  intros Hrep Hfields Hrc Hout Hw Hn. cbv zeta.
  destruct (execute_success env code st result rc out items Hrep Hfields Hrc Hw)
    as (st1 & r & Hfiles & _ & Hloop & -> & ->).
  rewrite process_files_no_png in * by done. cbn [snd] in *.
  apply (f_equal fst) in Hloop. cbn [fst] in Hloop. injection Hloop as <-.
  destruct out as [|c out]; [done|].
  unfold success_finish, success_start. cbn [app].
  repeat split; try reflexivity. exact Hfiles.
Qed.

Lemma text_only_witness :
  replies (world frozen_clock
             (inr (reply_of 0 (py "42" ++ [10]) [entry (py "out.txt") (py "aGk=")])))
    sample_code empty_state
    (reply_of 0 (py "42" ++ [10]) [entry (py "out.txt") (py "aGk=")]) /\
  (execute_python_code
     (world frozen_clock
        (inr (reply_of 0 (py "42" ++ [10]) [entry (py "out.txt") (py "aGk=")])))
     sample_code empty_state).1 !! "stdout" = Some (PStr (py "42")).
Proof.
  assert (H1 : replies (world frozen_clock
                 (inr (reply_of 0 (py "42" ++ [10]) [entry (py "out.txt") (py "aGk=")])))
                 sample_code empty_state
                 (reply_of 0 (py "42" ++ [10]) [entry (py "out.txt") (py "aGk=")])).
  { apply replies_world. vm_compute. eauto. }
  assert (H2 : py "42" <> []) by (vm_compute; discriminate).
  destruct (text_only _ sample_code empty_state _ (PInt 0) (py "42")
              [entry (py "out.txt") (py "aGk=")] H1 eq_refl eq_refl H2
              ltac:(repeat constructor) ltac:(repeat constructor)) as (Hr & _).
  split; [exact H1|]. rewrite Hr. reflexivity.
Defined.

(** X13: files that are not a list.  A reply with return code 0 whose
    ["files"] is a non-empty string or object, a non-zero number or [true]
    makes the loop raise [TypeError]: the call returns a system error and
    writes no file. *)
Theorem files_not_a_list env code st result rc out fv :
  replies env code st result ->
  reply_fields result = Some (rc, out, fv) ->
  eq_zero rc = true -> truthy fv = true ->
  (forall l, fv <> PList l) ->
  let run := execute_python_code env code st in
  (exists e, exn_cls e = TypeError /\ run.1 = system_error e) /\
  files run.2 = files st.
Proof.
  intros Hrep Hfields Hrc Hfv Hnl.
  destruct (try_body_replies env code st result Hrep)
    as (st1 & data & Hrun & Hfiles & _).
  unfold execute_python_code. rewrite Hrun.
  apply reply_fields_get in Hfields as (raw & Hg1 & Hg2 & Hst & Hg3).
  unfold build_response. unfold_ops. rewrite Hg1, Hg2, Hg3. cbn.
  rewrite Hrc, Hst, Hfv. cbn.
  destruct fv as [|b|z|s|l|d]; cbn in *; try done.
  - split; [|done]. by eexists (Exn _ _).
  - split; [|done]. by eexists (Exn _ _).
  - destruct s as [|c s]; [done|]. cbn. unfold process_file. unfold_ops. cbn.
    split; [|done]. by eexists (Exn _ _).
  - by destruct (Hnl l).
  - destruct d as [|[k v] d]; [done|]. cbn. unfold process_file. unfold_ops. cbn.
    split; [|done]. by eexists (Exn _ _).
Qed.

Lemma files_not_a_list_witness :
  replies (world frozen_clock
             (inr (PDict [(py "files", PStr (py "fig.png"))])))
    sample_code empty_state (PDict [(py "files", PStr (py "fig.png"))]) /\
  (execute_python_code
     (world frozen_clock (inr (PDict [(py "files", PStr (py "fig.png"))])))
     sample_code empty_state).1 !! "error_message"
  = Some (PStr (py "string indices must be integers, not 'str'")).
Proof.
  assert (H1 : replies (world frozen_clock
                 (inr (PDict [(py "files", PStr (py "fig.png"))])))
                 sample_code empty_state
                 (PDict [(py "files", PStr (py "fig.png"))])).
  { apply replies_world. vm_compute. eauto. }
  assert (H2 : forall l, PStr (py "fig.png") <> PList l) by (intros l; discriminate).
  destruct (files_not_a_list _ sample_code empty_state _ (PInt 0) []
              (PStr (py "fig.png")) H1 eq_refl eq_refl eq_refl H2)
    as ((e & _ & He) & _).
  split; [exact H1|]. vm_compute. reflexivity.
Defined.

(** ** Failures before the request *)

(** X14: when the working directory cannot be created, nothing else is
    attempted: the call returns the system error of that failure, the clock
    is not read, no temporary directory is made, no request is sent and no
    file is touched; one line is logged. *)
Theorem makedirs_fails env code st e :
  faults env (Makedirs (TEMP_DIR env)) = Some e ->
  execute_python_code env code st
  = (system_error e, set_logged (fun l => l ++ [log_line e]) st).
Proof.
  intros H. unfold execute_python_code, try_body. unfold_ops. by rewrite H.
Qed.

Lemma makedirs_fails_witness :
  (execute_python_code read_only_world sample_code empty_state).1 !! "error_message"
  = Some (PStr (py "[Errno 13] Permission denied: '/srv/app/temp'")) /\
  requests (execute_python_code read_only_world sample_code empty_state).2 = [].
Proof.
  rewrite (makedirs_fails read_only_world sample_code empty_state
             (Exn OSError (py "[Errno 13] Permission denied: '/srv/app/temp'"))
             eq_refl).
  split; reflexivity.
Defined.

(** X15: a source with a lone surrogate cannot be hashed: the call returns a
    system error of class [UnicodeEncodeError] without sending anything; the
    working directory has been created and the clock was not read. *)
Theorem unencodable_source env code st :
  no_faults env -> tmpdirs st !! mkdtemp_name env = None ->
  utf8_encode code = None ->
  let run := execute_python_code env code st in
  (exists e, exn_cls e = UnicodeEncodeError /\ run.1 = system_error e) /\
  requests run.2 = requests st /\ files run.2 = files st /\
  tmpdirs run.2 = tmpdirs st /\ ticks run.2 = ticks st /\
  dirs run.2 = {[TEMP_DIR env]} ∪ dirs st.
Proof.
  intros Hf Hfresh Hbad. unfold execute_python_code, try_body. unfold_ops.
  rewrite !Hf. cbn. rewrite Hfresh. cbn. rewrite Hbad. cbn. rewrite Hf. cbn.
  split; [by eexists (Exn _ _)|]. repeat split.
  rewrite delete_insert_eq. by apply delete_id.
Qed.

Lemma unencodable_source_witness :
  utf8_encode [0x78; 0xD800] = None /\
  requests (execute_python_code (world frozen_clock (inr (PDict [])))
              [0x78; 0xD800] empty_state).2 = [] /\
  (execute_python_code (world frozen_clock (inr (PDict [])))
     [0x78; 0xD800] empty_state).1 !! "error_type"
  = Some (PStr (py "system_error")).
Proof.
  destruct (unencodable_source (world frozen_clock (inr (PDict [])))
              [0x78; 0xD800] empty_state (fun _ => eq_refl) eq_refl eq_refl)
    as ((e & _ & He) & Hreq & _).
  split; [reflexivity|]. split; [exact Hreq|]. rewrite He. reflexivity.
Defined.

(** ** Blank sources *)

Lemma lstrip_blank s : Forall (fun c => py_isspace c = true) s -> lstrip s = [].
Proof. induction 1 as [|c s Hc Hs IH]; cbn; [done|]. by rewrite Hc. Qed.

Lemma strip_blank s : Forall (fun c => py_isspace c = true) s -> strip s = [].
Proof. intros H. unfold strip, rstrip. by rewrite (lstrip_blank s H). Qed.

Lemma space_below_surrogates c : py_isspace c = true -> c < 0xD800.
Proof.
  unfold py_isspace. intros H.
  repeat match type of H with
  | (_ || _) = true => apply orb_prop in H as [H|H]
  end;
  repeat match goal with
  | H : (_ && _) = true |- _ => apply andb_prop in H as [? ?]
  | H : (_ =? _) = true |- _ => apply N.eqb_eq in H
  | H : (_ <=? _) = true |- _ => apply N.leb_le in H
  end; lia.
Qed.

Lemma space_encodable c : py_isspace c = true -> is_Some (utf8_char c).
Proof.
  intros H%space_below_surrogates. unfold utf8_char.
  destruct (c <? 0x80); [by eauto|]. destruct (c <? 0x800); [by eauto|].
  assert (H1 : (0xD800 <=? c) = false) by (apply N.leb_gt; lia).
  assert (H2 : (c <? 0x10000) = true) by (apply N.ltb_lt; lia).
  rewrite H1, H2. cbn. eauto.
Qed.

(** What is sent when the steps before the request succeed. *)
Lemma requests_after_call env code st bs raw :
  no_faults env -> tmpdirs st !! mkdtemp_name env = None ->
  utf8_encode code = Some bs -> utf8_encode (strip (dedent code)) = Some raw ->
  requests (execute_python_code env code st).2
  = requests st
    ++ [payload (unique_filename bs [] (py ".py") (clock env (ticks st)))
          (b64encode raw)].
Proof.
  intros Hf Hfresh Hbs Hraw.
  unfold execute_python_code, try_body. unfold_ops.
  rewrite !Hf. cbn. rewrite Hfresh. cbn. rewrite Hbs. cbn. rewrite !Hf. cbn.
  rewrite Hraw. cbn. rewrite !lookup_insert_eq. cbn.
  rewrite !lookup_insert_eq. cbn.
  fold (unique_filename bs [] (py ".py") (clock env (ticks st))).
  destruct (sandbox env _) as [e|result]; cbn; [done|].
  match goal with
  | |- context [build_response env result ?s] =>
      destruct (build_response_frame env result s) as (_ & _ & Hr & _);
      destruct (build_response env result s) as [[e|r] st2]
  end; cbn in *; by rewrite Hr.
Qed.

(** X16: an empty source, or one made of white space only, is not rejected:
    the call sends a file with empty content to the sandbox. *)
Theorem blank_source_is_sent env code st :
  no_faults env -> tmpdirs st !! mkdtemp_name env = None ->
  Forall (fun c => py_isspace c = true) code ->
  strip (dedent code) = [] /\
  exists name,
    requests (execute_python_code env code st).2
    = requests st ++ [payload name []].
Proof.
  intros Hf Hfresh Hblank.
  assert (Hnorm : strip (dedent code) = []).
  { apply strip_blank, Forall_dedent; [reflexivity|done]. }
  split; [done|].
  assert (Henc : is_Some (utf8_encode code)).
  { apply utf8_encode_Some. eapply Forall_impl; [exact Hblank|].
    intros c. apply space_encodable. }
  destruct Henc as [bs Hbs]. eexists.
  apply (requests_after_call env code st bs []); try done.
  by rewrite Hnorm.
Qed.

Lemma blank_source_is_sent_witness :
  exists name,
    requests (execute_python_code (world frozen_clock (inr (PDict [])))
                (py "   " ++ [10; 9]) empty_state).2
    = [payload name []].
Proof.
  destruct (blank_source_is_sent (world frozen_clock (inr (PDict [])))
              (py "   " ++ [10; 9]) empty_state (fun _ => eq_refl) eq_refl
              ltac:(repeat constructor)) as (_ & name & H).
  exists name. exact H.
Defined.

(** ** The log *)

Lemma same_log_refl st : same_log st st.
Proof. done. Qed.

Lemma same_log_trans a b c : same_log a b -> same_log b c -> same_log a c.
Proof. unfold same_log. congruence. Qed.

Lemma with_body_log env code tmp :
  preserves same_log
    (main_filename ← get_unique_filename env code [] (py ".py");
     write_text env tmp (path_join tmp main_filename) (strip (dedent code));;
     raw ← read_bytes env tmp (path_join tmp main_filename);
     result ← post_json env (payload main_filename (b64encode raw));
     build_response env result).
Proof.
  assert (Hnow : preserves same_log (now env)) by (intros st; done).
  unfold get_unique_filename, write_text, read_bytes, post_json, put_tmp.
  repeat (first
    [ match goal with
      | |- preserves _ (build_response _ ?res) =>
          intros s; by destruct (build_response_frame env res s) as (_ & _ & _ & H & _)
      end
    | apply (preserves_bind _ same_log_trans); [|intros]
    | apply (preserves_ret _ same_log_refl)
    | apply (preserves_lift _ same_log_refl)
    | apply (preserves_gets _ same_log_refl)
    | apply (preserves_io _ same_log_refl)
    | apply (preserves_encode _ same_log_refl)
    | exact Hnow
    | apply preserves_modify; intros; reflexivity
    | match goal with
      | |- preserves _ (match ?x with _ => _ end) => destruct x
      end
    | apply (preserves_raise _ same_log_refl) ]).
Qed.

Lemma try_body_log env code st : logged (try_body env code st).2 = logged st.
Proof.
  unfold try_body.
  pose proof (with_body_log env code) as Hbody.
  match goal with
  | |- context [with_tempdir env ?b] => set (body := b) in *
  end.
  change (forall tmp, preserves same_log (body tmp)) in Hbody.
  clearbody body. unfold makedirs, with_tempdir. unfold_ops.
  destruct (faults env (Makedirs _)) as [e|]; cbn; [done|].
  destruct (faults env Mkdtemp) as [e|]; cbn; [done|].
  destruct (tmpdirs st !! mkdtemp_name env) as [old|]; cbn; [done|].
  match goal with
  | |- context [body ?t ?s] =>
      pose proof (Hbody t s) as H; destruct (body t s) as [r st2]
  end.
  cbn in H. destruct (faults env (Rmtree _)); cbn; exact H.
Qed.

(** X17: the log.  A call that returns what the body of the [try] returned
    logs nothing; a call whose body raised [e] logs one line, the fixed
    prefix followed by [str(e)]. *)
Theorem one_log_line_per_failure env code st :
  match try_body env code st with
  | (inr _, _) => logged (execute_python_code env code st).2 = logged st
  | (inl e, _) =>
      logged (execute_python_code env code st).2 = logged st ++ [log_line e]
  end.
Proof.
  unfold execute_python_code. pose proof (try_body_log env code st) as H.
  destruct (try_body env code st) as [[e|r] st']; cbn in *; by rewrite H.
Qed.

(** ** The shape of every response *)

Lemma update_other (r : gmap string pyval) items k :
  Forall (fun kv => kv.1 <> k) items -> update r items !! k = r !! k.
Proof.
  unfold update. revert r. induction items as [|[k' v] items IH]; intros r H; [done|].
  apply Forall_cons in H as [Hk H]. cbn. rewrite IH by done.
  by apply lookup_insert_ne.
Qed.

(** What [build_response] returns when it returns. *)
Lemma build_response_returns env result st r st' :
  build_response env result st = (inr r, st') ->
  exists rc,
    r !! "returncode" = Some rc /\
    r !! "status" = Some (PStr (py (if eq_zero rc then "success" else "error"))) /\
    (eq_zero rc = false ->
       r !! "error_type" = Some (PStr (py "execution_error")) /\
       is_Some (r !! "error_message") /\ r !! "output_type" = None) /\
    (eq_zero rc = true ->
       r !! "error_type" = None /\ r !! "error_message" = None).
Proof.
  unfold build_response. unfold_ops.
  destruct (get_method result (py "returncode") (PInt 0)) as [e|rc]; cbn; [done|].
  destruct (get_method result (py "stdout") (PStr [])) as [e|so]; cbn; [done|].
  destruct (strip_method so) as [e|out]; cbn; [done|].
  destruct (get_method result (py "files") (PList [])) as [e|fv]; cbn; [done|].
  destruct (eq_zero rc) eqn:Hrc; cbn.
  - set (r0 := if negb (bool_decide (out = [])) then _ else _).
    assert (H0 : r0 !! "returncode" = Some rc /\
                 r0 !! "status" = Some (PStr (py "success")) /\
                 r0 !! "error_type" = None /\ r0 !! "error_message" = None).
    { subst r0. destruct (negb _); repeat split; reflexivity. }
    clearbody r0. destruct H0 as (Ha & Hb & Hc & Hd).
    intros Hrun.
    assert (exists r1,
      (forall k, plot_key k = false -> r1 !! k = r0 !! k) /\
      (r = r1 \/ r = update r1
             [ ("output_type", PStr (py "none"));
               ("details",
                PStr (py "Code executed successfully but produced no output")) ]))
      as (r1 & Hkeys & Hr).
    { destruct (truthy fv); cbn in Hrun.
      - destruct (iterate fv) as [e|items]; cbn in Hrun; [done|].
        destruct (process_files env items r0 st) as [[e|r1] st1] eqn:Hloop; [done|].
        exists r1. split; [intros k Hk; by eapply process_files_keys|].
        apply (f_equal fst) in Hrun. cbn in Hrun. injection Hrun as <-.
        rewrite andb_false_r. by left.
      - exists r0. split; [done|].
        apply (f_equal fst) in Hrun. cbn in Hrun. injection Hrun as <-.
        destruct (negb _ && _); [by right|by left]. }
    exists rc. rewrite Hrc.
    assert (Hget : forall k, plot_key k = false -> r !! k = r0 !! k).
    { intros k Hk. destruct Hr as [->| ->]; [by apply Hkeys|].
      rewrite update_other; [by apply Hkeys|].
      unfold plot_key in Hk.
      repeat (apply orb_false_elim in Hk as [Hk ?]).
      repeat match goal with
      | H : bool_decide _ = false |- _ => apply bool_decide_eq_false in H
      end.
      repeat constructor; cbn; congruence. }
    rewrite !Hget by reflexivity. repeat split; try done.
  - intros Hrun. apply (f_equal fst) in Hrun. cbn in Hrun. injection Hrun as <-.
    exists rc. rewrite Hrc. repeat split; try reflexivity; try done.
Qed.

(** A response returned by the body of the [try] was built from a reply. *)
Lemma try_body_returns env code st r st' :
  try_body env code st = (inr r, st') ->
  exists result s s', build_response env result s = (inr r, s').
Proof.
  unfold try_body. unfold_ops.
  destruct (faults env (Makedirs _)) as [e|]; cbn; [done|].
  destruct (faults env Mkdtemp) as [e|]; cbn; [done|].
  destruct (tmpdirs st !! mkdtemp_name env) as [old|]; cbn; [done|].
  destruct (utf8_encode code) as [bs|]; cbn;
    [|destruct (faults env (Rmtree _)); cbn; done].
  destruct (faults env (OpenWrite _)) as [e|]; cbn;
    [destruct (faults env (Rmtree _)); cbn; done|].
  destruct (utf8_encode (strip (dedent code))) as [raw|]; cbn;
    [|destruct (faults env (Rmtree _)); cbn; done].
  destruct (faults env (OpenRead _)) as [e|]; cbn;
    [destruct (faults env (Rmtree _)); cbn; done|].
  rewrite !lookup_insert_eq. cbn. rewrite !lookup_insert_eq. cbn.
  destruct (sandbox env _) as [e|result]; cbn;
    [destruct (faults env (Rmtree _)); cbn; done|].
  match goal with
  | |- context [build_response env result ?s] =>
      destruct (build_response env result s) as [[e|r'] s'] eqn:Hb
  end; cbn; destruct (faults env (Rmtree _)); cbn; try done.
  intros Hrun. apply (f_equal fst) in Hrun. cbn in Hrun. injection Hrun as <-.
  eauto.
Qed.

(** X18: the shape of every response, for every source, reply and fault.
    ["status"] is ["success"] or ["error"].  An error carries ["error_type"],
    which is ["system_error"] or ["execution_error"], and an
    ["error_message"]; a system error has no ["returncode"], an execution
    error has one that is not 0 and no ["output_type"].  A success carries a
    ["returncode"] equal to 0 and no error field. *)
Theorem response_shape env code st :
  let r := (execute_python_code env code st).1 in
  (r !! "status" = Some (PStr (py "error")) /\
   r !! "error_type" = Some (PStr (py "system_error")) /\
   is_Some (r !! "error_message") /\ r !! "returncode" = None) \/
  (r !! "status" = Some (PStr (py "error")) /\
   r !! "error_type" = Some (PStr (py "execution_error")) /\
   is_Some (r !! "error_message") /\ r !! "output_type" = None /\
   exists rc, r !! "returncode" = Some rc /\ eq_zero rc = false) \/
  (r !! "status" = Some (PStr (py "success")) /\
   r !! "error_type" = None /\ r !! "error_message" = None /\
   exists rc, r !! "returncode" = Some rc /\ eq_zero rc = true).
Proof.
  cbv zeta. unfold execute_python_code.
  destruct (try_body env code st) as [[e|r] st'] eqn:Hrun; cbn.
  - left. destruct (system_error_fields e) as (H1 & H2 & H3 & H4 & _).
    rewrite H3. eauto 6.
  - right.
    destruct (try_body_returns env code st r st' Hrun) as (result & s & s' & Hb).
    destruct (build_response_returns env result s r s' Hb)
      as (rc & Hrc & Hs & Herr & Hok).
    destruct (eq_zero rc) eqn:Hz.
    + right. destruct (Hok eq_refl) as (H1 & H2). eauto 8.
    + left. destruct (Herr eq_refl) as (H1 & H2 & H3). eauto 8.
Qed.

(** ** Two calls *)

(** X19: plots of different calls share a name.  When the plot of a call and
    the plot of the next call are named at the same second, both responses
    give the same ["plot_path"], whatever the two sources and the two plots
    are, and after the second call the file holds the plot of the second:
    the plot the first response points to has been overwritten. *)
Theorem same_second_plots_overwrite env st
    code1 result1 rc1 out1 l1 f1 k1 code2 result2 rc2 out2 l2 f2 k2 c2 :
  let run1 := execute_python_code env code1 st in
  let run2 := execute_python_code env code2 run1.2 in
  replies env code1 st result1 ->
  reply_fields result1 = Some (rc1, out1, PList (l1 ++ f1 :: k1)) ->
  eq_zero rc1 = true ->
  Forall (fun f => well_formed f = true) (l1 ++ f1 :: k1) ->
  is_png f1 = true -> Forall (fun f => is_png f = false) k1 ->
  replies env code2 run1.2 result2 ->
  reply_fields result2 = Some (rc2, out2, PList (l2 ++ f2 :: k2)) ->
  eq_zero rc2 = true ->
  Forall (fun f => well_formed f = true) (l2 ++ f2 :: k2) ->
  is_png f2 = true -> Forall (fun f => is_png f = false) k2 ->
  entry_content f2 = Some c2 ->
  clock env (S (ticks st) + count_png l1)
  = clock env (S (ticks run1.2) + count_png l2) ->
  exists path bs2,
    run1.1 !! "plot_path" = Some (PStr path) /\
    run2.1 !! "plot_path" = Some (PStr path) /\
    b64decode_str c2 = inr bs2 /\
    files run2.2 !! path = Some bs2.
Proof.
  cbv zeta. intros A1 A2 A3 A4 A5 A6 B1 B2 B3 B4 B5 B6 Hc2 Hclock.
  destruct (execute_last_plot env code1 st result1 rc1 out1 l1 f1 k1
              A1 A2 A3 A4 A5 A6)
    as (c1 & bs1 & _ & _ & _ & _ & Hp1 & _ & _).
  destruct (execute_last_plot env code2 _ result2 rc2 out2 l2 f2 k2
              B1 B2 B3 B4 B5 B6)
    as (c2' & bs2 & Hc2' & Hbs2 & _ & _ & Hp2 & _ & Hf2).
  rewrite Hc2 in Hc2'. injection Hc2' as <-. cbv zeta in *.
  rewrite <- Hclock in Hp2, Hf2. eauto 6.
Qed.

Lemma same_second_plots_overwrite_witness :
  (execute_python_code two_callers_world (py "print(1)") empty_state).1
    !! "plot_path"
  = (execute_python_code two_callers_world (py "print(2)")
       (execute_python_code two_callers_world (py "print(1)") empty_state).2).1
    !! "plot_path" /\
  exists path,
    (execute_python_code two_callers_world (py "print(1)") empty_state).1
      !! "plot_path" = Some (PStr path) /\
    files (execute_python_code two_callers_world (py "print(1)") empty_state).2
      !! path = Some (py "ABC") /\
    files (execute_python_code two_callers_world (py "print(2)")
             (execute_python_code two_callers_world (py "print(1)") empty_state).2).2
      !! path = Some (py "xyz").
Proof.
  assert (A1 : replies two_callers_world (py "print(1)") empty_state
                 (plot_reply (py "QUJD"))).
  { split; [done|]. split; [done|]. eexists. split; vm_compute; reflexivity. }
  assert (B1 : replies two_callers_world (py "print(2)")
                 (execute_python_code two_callers_world (py "print(1)") empty_state).2
                 (plot_reply (py "eHl6"))).
  { split; [done|]. split; [vm_compute; reflexivity|].
    eexists. split; vm_compute; reflexivity. }
  destruct (same_second_plots_overwrite two_callers_world empty_state
              (py "print(1)") (plot_reply (py "QUJD")) (PInt 0) []
              [] (entry (py "fig.png") (py "QUJD")) []
              (py "print(2)") (plot_reply (py "eHl6")) (PInt 0) []
              [] (entry (py "fig.png") (py "eHl6")) [] (py "eHl6")
              A1 eq_refl eq_refl ltac:(repeat constructor) eq_refl
              (List.Forall_nil _)
              B1 eq_refl eq_refl ltac:(repeat constructor) eq_refl
              (List.Forall_nil _) eq_refl eq_refl)
    as (path & bs2 & Hp1 & Hp2 & Hbs2 & Hf2).
  split; [by rewrite Hp1, Hp2|].
  exists path. split; [exact Hp1|].
  vm_compute in Hbs2. injection Hbs2 as <-. split; [|exact Hf2].
  vm_compute in Hp1. injection Hp1 as <-. vm_compute. reflexivity.
Defined.

(** ** The names of two calls *)

Lemma plot_path_name env t :
  plot_path env t
  = path_join (TEMP_DIR env) (py "plot_d41d8cd9_" ++ strftime t ++ py ".png").
Proof.
  unfold plot_path, unique_filename, format_filename.
  replace (take 8 (md5_hexdigest [])) with (py "d41d8cd9") by (vm_compute; reflexivity).
  reflexivity.
Qed.

(** C7, amended: the names of two calls made in the same second.  Both calls
    reach the sandbox and draw a plot; their sources are named at the same
    second, and so are their last plots.  Then the name each call sends its
    source under is the first eight hexadecimal digits of the MD5 of the
    source, the second and [".py"], so the two names are equal exactly when
    those eight digits agree, which equal sources give but different sources
    do not exclude; and the plots of the two calls get one and the same path,
    [plot_d41d8cd9_<second>.png] in the working directory, whatever the
    sources and the plots are, the hash being taken over the empty string. *)
Theorem same_second_names env code1 code2 st1 st2 l1 f1 l2 f2 :
  draws env code1 st1 l1 f1 -> draws env code2 st2 l2 f2 ->
  clock env (ticks st1) = clock env (ticks st2) ->
  clock env (S (ticks st1) + count_png l1) = clock env (S (ticks st2) + count_png l2) ->
  let run1 := execute_python_code env code1 st1 in
  let run2 := execute_python_code env code2 st2 in
  exists bs1 bs2 c1 c2,
    utf8_encode code1 = Some bs1 /\ utf8_encode code2 = Some bs2 /\
    let name1 := take 8 (md5_hexdigest bs1) ++ py "_"
                 ++ strftime (clock env (ticks st1)) ++ py ".py" in
    let name2 := take 8 (md5_hexdigest bs2) ++ py "_"
                 ++ strftime (clock env (ticks st2)) ++ py ".py" in
    let plot := path_join (TEMP_DIR env)
                  (py "plot_d41d8cd9_"
                   ++ strftime (clock env (S (ticks st1) + count_png l1))
                   ++ py ".png") in
    requests run1.2 = requests st1 ++ [payload name1 c1] /\
    requests run2.2 = requests st2 ++ [payload name2 c2] /\
    (name1 = name2 <-> take 8 (md5_hexdigest bs1) = take 8 (md5_hexdigest bs2)) /\
    (code1 = code2 -> name1 = name2) /\
    run1.1 !! "plot_path" = Some (PStr plot) /\
    run2.1 !! "plot_path" = Some (PStr plot).
Proof.
  intros (result1 & rc1 & out1 & k1 & Hrep1 & Hfields1 & Hrc1 & Hw1 & Hp1 & Hn1).
  intros (result2 & rc2 & out2 & k2 & Hrep2 & Hfields2 & Hrc2 & Hw2 & Hp2 & Hn2).
  intros Hsrc Hplot. cbv zeta.
  destruct (execute_last_plot env code1 st1 result1 rc1 out1 l1 f1 k1
              Hrep1 Hfields1 Hrc1 Hw1 Hp1 Hn1)
    as (? & ? & _ & _ & _ & _ & Hpath1 & _).
  destruct (execute_last_plot env code2 st2 result2 rc2 out2 l2 f2 k2
              Hrep2 Hfields2 Hrc2 Hw2 Hp2 Hn2)
    as (? & ? & _ & _ & _ & _ & Hpath2 & _).
  cbv zeta in Hpath1, Hpath2.
  rewrite <- Hplot, plot_path_name in Hpath2. rewrite plot_path_name in Hpath1.
  destruct Hrep1 as (Hf & Hfresh1 & data1 & Hreq1 & _).
  destruct Hrep2 as (_ & Hfresh2 & data2 & Hreq2 & _).
  unfold request_for in Hreq1, Hreq2.
  destruct (utf8_encode code1) as [bs1|] eqn:Hbs1; [|done].
  destruct (utf8_encode code2) as [bs2|] eqn:Hbs2; [|done].
  cbn in Hreq1, Hreq2.
  destruct (utf8_encode (strip (dedent code1))) as [raw1|] eqn:Hraw1; [|done].
  destruct (utf8_encode (strip (dedent code2))) as [raw2|] eqn:Hraw2; [|done].
  exists bs1, bs2, (b64encode raw1), (b64encode raw2).
  split; [done|]. split; [done|].
  split; [exact (requests_after_call env code1 st1 bs1 raw1 Hf Hfresh1 Hbs1 Hraw1)|].
  split; [exact (requests_after_call env code2 st2 bs2 raw2 Hf Hfresh2 Hbs2 Hraw2)|].
  rewrite <- Hsrc.
  split; [|split; [|done]].
  - split.
    + intros H. by apply List.app_inv_tail in H.
    + by intros ->.
  - intros ->. rewrite Hbs1 in Hbs2. by injection Hbs2 as ->.
Qed.

Lemma same_second_names_witness :
  draws one_plot_world (py "print(890)") empty_state []
    (entry (py "fig.png") (py "QUJD")) /\
  draws one_plot_world (py "print(40914)") after_first_call []
    (entry (py "fig.png") (py "QUJD")) /\
  (exists c1 c2,
     requests after_first_call = [payload (py "1cb830d5_20240517_090307.py") c1] /\
     requests (execute_python_code one_plot_world (py "print(40914)")
                 after_first_call).2
     = requests after_first_call
       ++ [payload (py "1cb830d5_20240517_090307.py") c2]) /\
  (execute_python_code one_plot_world (py "print(890)") empty_state).1
    !! "plot_path"
  = Some (PStr (py "/srv/app/temp/plot_d41d8cd9_20240517_090307.png")) /\
  (execute_python_code one_plot_world (py "print(40914)") after_first_call).1
    !! "plot_path"
  = Some (PStr (py "/srv/app/temp/plot_d41d8cd9_20240517_090307.png")).
Proof.
  assert (H1 : draws one_plot_world (py "print(890)") empty_state []
                 (entry (py "fig.png") (py "QUJD"))).
  { exists (plot_reply (py "QUJD")), (PInt 0), [], [].
    split; [apply replies_world; vm_compute; eauto|].
    split; [reflexivity|]. split; [reflexivity|].
    split; [repeat constructor|]. split; [reflexivity|constructor]. }
  assert (H2 : draws one_plot_world (py "print(40914)") after_first_call []
                 (entry (py "fig.png") (py "QUJD"))).
  { exists (plot_reply (py "QUJD")), (PInt 0), [], [].
    split.
    - split; [done|]. split; [vm_compute; reflexivity|].
      destruct (normalised_encodable (py "print(40914)")) as [raw Hraw];
        [vm_compute; eauto|].
      unfold request_for.
      replace (utf8_encode (py "print(40914)")) with (Some (py "print(40914)"))
        by (vm_compute; reflexivity).
      rewrite Hraw. cbn. eauto.
    - split; [reflexivity|]. split; [reflexivity|].
      split; [repeat constructor|]. split; [reflexivity|constructor]. }
  destruct (same_second_names one_plot_world
              (py "print(890)") (py "print(40914)") empty_state after_first_call
              [] _ [] _ H1 H2 eq_refl eq_refl)
    as (bs1 & bs2 & c1 & c2 & Hbs1 & Hbs2 & Hreq1 & Hreq2 & _ & _ & Hp1 & Hp2).
  cbv zeta in Hreq1, Hreq2, Hp1, Hp2.
  split; [exact H1|]. split; [exact H2|].
  replace (utf8_encode (py "print(890)")) with (Some (py "print(890)")) in Hbs1
    by (vm_compute; reflexivity).
  replace (utf8_encode (py "print(40914)")) with (Some (py "print(40914)")) in Hbs2
    by (vm_compute; reflexivity).
  injection Hbs1 as <-. injection Hbs2 as <-.
  replace (take 8 (md5_hexdigest (py "print(890)"))) with (py "1cb830d5") in Hreq1
    by (vm_compute; reflexivity).
  replace (take 8 (md5_hexdigest (py "print(40914)"))) with (py "1cb830d5") in Hreq2
    by (vm_compute; reflexivity).
  split; [|split].
  - exists c1, c2. split; [exact Hreq1|exact Hreq2].
  - rewrite Hp1. reflexivity.
  - rewrite Hp2. reflexivity.
Defined.

(** ** How many files a call writes *)






(** ** The payload, for every source *)




(** ** Malformed entries, kind by kind *)




